(** * sireader: a shallow embedding of the SportIdent station driver

    The definitions below follow [src/sireader/sireader.py],
    [src/sireader/sireader_control.py], [src/sireader/compat.py] and
    [src/sireader/si_constants.py].  Python [bytes] are lists of
    [Byte.byte], Python integers are [Z] (unbounded, as in the source),
    exceptions are the [Raise] branch of [result]. *)

From Stdlib Require Import ZArith List Bool Lia String Ascii DecimalString.
From Stdlib.Strings Require Import Byte.
From Stdlib Require Import Floats.
Import ListNotations.
Open Scope Z_scope.

(** ** Exceptions *)

Inductive exn : Type :=
| SIReaderException (msg : string)
| SIReaderTimeout (msg : string)
| IndexError
| KeyError
| NameError
| TypeError
| ValueError
| OverflowError
| StructError.

Inductive result (A : Type) : Type :=
| Ok (a : A)
| Raise (e : exn).
Arguments Ok {A} a.
Arguments Raise {A} e.

Definition rbind {A B} (r : result A) (k : A -> result B) : result B :=
  match r with
  | Ok a => k a
  | Raise e => Raise e
  end.

Declare Scope result_scope.
Delimit Scope result_scope with result.
Notation "'let?' x ':=' r 'in' k" := (rbind r (fun x => k))
  (at level 10, x pattern, r at level 100, k at level 200) : result_scope.
Open Scope result_scope.

(** ** compat.py: bytes and integers *)

Definition bytes := list byte.

(** [byte2int]: the integer value of a byte (Python 3 indexing already
    yields it). *)
Definition byte2int (b : byte) : Z := Z.of_N (Byte.to_N b).

(** [six.int2byte] is [struct.Struct(">B").pack]: it fails outside 0..255. *)
Definition int2byte (i : Z) : result bytes :=
  if (0 <=? i) && (i <? 256) then
    match Byte.of_N (Z.to_N i) with
    | Some b => Ok [b]
    | None => Raise StructError
    end
  else Raise StructError.

(** Python slice [s[a:b]] for non-negative bounds. *)
Definition slice (s : bytes) (a b : nat) : bytes := firstn (b - a) (skipn a s).

(** Python slice [s[a:]]. *)
Definition slice_from (s : bytes) (a : nat) : bytes := skipn a s.

(** Python indexing [s[i]] of a bytes object: an integer, or IndexError. *)
Definition index (s : bytes) (i : nat) : result Z :=
  match nth_error s i with
  | Some b => Ok (byte2int b)
  | None => Raise IndexError
  end.

Definition bytes_eqb (a b : bytes) : bool :=
  if list_eq_dec Byte.byte_eq_dec a b then true else false.

(** ** si_constants.py *)

Module SIConstants.
Definition CRC_POLYNOM : Z := 0x8005.
Definition CRC_BITF : Z := 0x8000.

Definition STX : byte := x02.
Definition ETX : byte := x03.
Definition ACK : byte := x06.
Definition NAK : byte := x15.
Definition WAKEUP : byte := xff.

Definition C_GET_BACKUP : byte := x81.
Definition C_SET_SYS_VAL : byte := x82.
Definition C_GET_SYS_VAL : byte := x83.
Definition C_TRANS_REC : byte := xd3.
Definition C_SET_MS : byte := xf0.
Definition C_SET_TIME : byte := xf6.
Definition C_GET_TIME : byte := xf7.

Definition O_SERIAL_NO : byte := x00.
Definition O_BACKUP_PTR_HI : byte := x1c.
Definition O_BACKUP_PTR_LO : byte := x21.
Definition O_MODE : byte := x71.
Definition O_PROTO : byte := x74.

Definition M_SIAC_SPECIAL : Z := 0x01.
Definition M_CONTROL : Z := 0x02.
Definition M_START : Z := 0x03.
Definition M_FINISH : Z := 0x04.
Definition M_READOUT : Z := 0x05.
Definition M_CLEAR_OLD : Z := 0x06.
Definition M_CLEAR : Z := 0x07.
Definition M_CHECK : Z := 0x0A.
Definition M_PRINTOUT : Z := 0x0B.
Definition M_START_TRIG : Z := 0x0C.
Definition M_FINISH_TRIG : Z := 0x0D.
Definition M_BC_CONTROL : Z := 0x12.
Definition M_BC_START : Z := 0x13.
Definition M_BC_FINISH : Z := 0x14.
Definition M_BC_READOUT : Z := 0x15.
Definition SUPPORTED_READ_BACKUP_MODES : list Z :=
  [M_CONTROL; M_START; M_FINISH; M_CLEAR_OLD; M_CLEAR; M_CHECK].

Definition MODE2NAME : list (Z * string) :=
  [(M_SIAC_SPECIAL, "SIAC special"); (M_CONTROL, "Control");
   (M_START, "Start"); (M_FINISH, "Finish"); (M_READOUT, "Readout");
   (M_CLEAR_OLD, "Clear old"); (M_CLEAR, "Clear"); (M_CHECK, "Check");
   (M_PRINTOUT, "Printout"); (M_START_TRIG, "Start trig");
   (M_FINISH_TRIG, "Finish trig"); (M_BC_CONTROL, "BC control");
   (M_BC_START, "BC start"); (M_BC_FINISH, "BC finish");
   (M_BC_READOUT, "BC readout")]%string.

Definition REC_LEN : Z := 8.
Definition TIME_RESET : bytes := [xee; xee].

Definition T_OFFSET : nat := 8.
Definition T_CN : nat := 0.
Definition T_TIME : nat := 5.
Definition BC_CN : nat := 3.
Definition BC_TIME : nat := 8.

Definition BUX_FIRST : nat := 2.
Definition BUX_SIZE : nat := 8.
Definition BUX_CN : nat := 0.
Definition BUX_YM : nat := 3.
Definition BUX_MDAP : nat := 4.
Definition BUX_SECS : nat := 5.
Definition BUX_MS : nat := 7.

Definition BUL_FIRST : nat := 2.
Definition BUL_SIZE : nat := 6.
Definition BUL_CN : nat := 0.
Definition BUL_SECS : nat := 2.
Definition BUL_PTD : nat := 4.
Definition BUL_CNS : nat := 5.
End SIConstants.
Import SIConstants.

(** ** Integer / byte-string conversions *)

(** [_to_int]: [for offset, c in enumerate(s[::-1]): value += c << offset*8] *)
Fixpoint _to_int_loop (offset : Z) (rs : bytes) (value : Z) : Z :=
  match rs with
  | [] => value
  | c :: rs' =>
      _to_int_loop (offset + 1) rs' (value + Z.shiftl (byte2int c) (offset * 8))
  end.

Definition _to_int (s : bytes) : Z := _to_int_loop 0 (rev s) 0.

(** Big-endian digits of [i] on [len] bytes (the value of [int.to_bytes]
    when [i] fits). *)
Fixpoint be_bytes (len : nat) (i : Z) : bytes :=
  match len with
  | O => []
  | S len' =>
      match Byte.of_N (Z.to_N (Z.land (Z.shiftr i (Z.of_nat len' * 8)) 0xFF)) with
      | Some b => b :: be_bytes len' i
      | None => be_bytes len' i
      end
  end.

(** [_to_str(i, len)]: under Python 3 this is [i.to_bytes(len, "big")],
    which raises OverflowError when [i] is negative or does not fit. *)
Definition _to_str (i : Z) (len : nat) : result bytes :=
  if (0 <=? i) && (i <? 2 ^ (8 * Z.of_nat len)) then Ok (be_bytes len i)
  else Raise OverflowError.

(** ** CRC *)

(** The generator [twochars]: pad with zero bytes to an even length plus
    one extra word, then split into two-byte pieces. *)
Fixpoint pairs (s : bytes) : list bytes :=
  match s with
  | a :: b :: s' => [a; b] :: pairs s'
  | [a] => [[a]]
  | [] => []
  end.

Definition twochars (s : bytes) : list bytes :=
  match s with
  | [] => []
  | _ =>
      let s' := if Nat.even (List.length s)
                then s ++ [x00; x00]
                else s ++ [x00] in
      pairs s'
  end.

(** One pass of the body of [for j in range(16)]. *)
Definition crc_bit (st : Z * Z) : Z * Z :=
  let '(crc, val) := st in
  let crc :=
    if negb (Z.land crc CRC_BITF =? 0) then
      let crc := Z.shiftl crc 1 in
      let crc := if negb (Z.land val CRC_BITF =? 0) then crc + 1 else crc in
      Z.lxor crc CRC_POLYNOM
    else
      let crc := Z.shiftl crc 1 in
      if negb (Z.land val CRC_BITF =? 0) then crc + 1 else crc in
  (crc, Z.shiftl val 1).

Definition crc_word (crc : Z) (c : bytes) : Z :=
  fst (Nat.iter 16 crc_bit (crc, _to_int c)).

Definition _crc (s : bytes) : result bytes :=
  if (List.length s <? 1)%nat then Ok [x00; x00]
  else
    let crc := _to_int (slice s 0 2) in
    let crc := fold_left crc_word (twochars (slice_from s 2)) crc in
    let crc := Z.land crc 0xFFFF in
    let? hi := int2byte (Z.shiftr crc 8) in
    let? lo := int2byte (Z.land crc 0xFF) in
    Ok (hi ++ lo).

Definition _crc_check (s crc : bytes) : bool :=
  match _crc s with
  | Ok c => bytes_eqb c crc
  | Raise _ => false
  end.

(** ** Python floats

    The source computes sub-second fields with binary64 arithmetic
    ([/ 256.0 * 1000000], [1e6 * b / 256]) and rounds with [round], which
    under Python 3 rounds halves to the even neighbour.  The primitive
    floats of Rocq are binary64 with round-to-nearest-even, so these
    expressions are evaluated here exactly as CPython evaluates them. *)

Definition float_of_int (i : Z) : float := PrimFloat.of_uint63 (Uint63.of_Z i).

(** [round(x)] for a float [x]: the nearest integer, ties to even.  A
    finite float is [m * 2^e]; for [e < 0] the quotient and the remainder
    of [m] by [2^(-e)] are taken with shifts and masks. *)
Definition py_round (x : float) : result Z :=
  match Prim2SF x with
  | S754_zero _ => Ok 0
  | S754_infinity _ => Raise OverflowError
  | S754_nan => Raise ValueError
  | S754_finite s m e =>
      let m := Z.pos m in
      let mag :=
        if 0 <=? e then Z.shiftl m e
        else
          let q := Z.shiftr m (- e) in
          let r := Z.land m (Z.ones (- e)) in
          let half := Z.shiftl 1 (- e - 1) in
          if r <? half then q
          else if half <? r then q + 1
          else if Z.even q then q else q + 1 in
      Ok (if s then - mag else mag)
  end.

(** ** The datetime module (the part the driver uses)

    A naive [datetime] is represented by its proleptic Gregorian ordinal
    ([toordinal()], 0001-01-01 is day 1) and the microseconds elapsed since
    midnight; a [timedelta] by its total number of microseconds.  The
    calendar functions follow CPython's [_pydatetime]. *)

Module Datetime.

Definition _MAXORDINAL : Z := 3652059.
Definition MINYEAR : Z := 1.
Definition MAXYEAR : Z := 9999.
Definition US_PER_DAY : Z := 86400000000.

Definition _DAYS_IN_MONTH : list Z :=
  [-1; 31; 28; 31; 30; 31; 30; 31; 31; 30; 31; 30; 31].
Definition _DAYS_BEFORE_MONTH : list Z :=
  [-1; 0; 31; 59; 90; 120; 151; 181; 212; 243; 273; 304; 334].

Definition _is_leap (year : Z) : bool :=
  (year mod 4 =? 0) && (negb (year mod 100 =? 0) || (year mod 400 =? 0)).

Definition _days_before_year (year : Z) : Z :=
  let y := year - 1 in
  y * 365 + y / 4 - y / 100 + y / 400.

Definition _days_in_month (year month : Z) : Z :=
  if (month =? 2) && _is_leap year then 29
  else nth (Z.to_nat month) _DAYS_IN_MONTH 0.

Definition _days_before_month (year month : Z) : Z :=
  nth (Z.to_nat month) _DAYS_BEFORE_MONTH 0
  + (if (2 <? month) && _is_leap year then 1 else 0).

Definition _ymd2ord (year month day : Z) : Z :=
  _days_before_year year + _days_before_month year month + day.

Definition _DI400Y : Z := 146097.
Definition _DI100Y : Z := 36524.
Definition _DI4Y : Z := 1461.

Definition _ord2ymd (n : Z) : Z * Z * Z :=
  let n := n - 1 in
  let n400 := n / _DI400Y in
  let n := n mod _DI400Y in
  let year := n400 * 400 + 1 in
  let n100 := n / _DI100Y in
  let n := n mod _DI100Y in
  let n4 := n / _DI4Y in
  let n := n mod _DI4Y in
  let n1 := n / 365 in
  let n := n mod 365 in
  let year := year + n100 * 100 + n4 * 4 + n1 in
  if (n1 =? 4) || (n100 =? 4) then (year - 1, 12, 31)
  else
    let leapyear := (n1 =? 3) && (negb (n4 =? 24) || (n100 =? 3)) in
    let month := Z.shiftr (n + 50) 5 in
    let preceding :=
      nth (Z.to_nat month) _DAYS_BEFORE_MONTH 0
      + (if (2 <? month) && leapyear then 1 else 0) in
    if n <? preceding then
      let month := month - 1 in
      let preceding :=
        preceding
        - (nth (Z.to_nat month) _DAYS_IN_MONTH 0
           + (if (month =? 2) && leapyear then 1 else 0)) in
      (year, month, n - preceding + 1)
    else (year, month, n - preceding + 1).

Record datetime : Type := mkdt {
  toordinal : Z;   (* date part: proleptic Gregorian ordinal *)
  dayus : Z        (* time part: microseconds since midnight *)
}.

Definition timedelta : Type := Z.

(** [timedelta(days=, hours=, minutes=, seconds=, microseconds=)] *)
Definition mktd (days hours minutes seconds microseconds : Z) : timedelta :=
  days * US_PER_DAY + hours * 3600000000 + minutes * 60000000
  + seconds * 1000000 + microseconds.

Definition valid (t : datetime) : Prop :=
  1 <= toordinal t <= _MAXORDINAL /\ 0 <= dayus t < US_PER_DAY.

Definition year (t : datetime) : Z := fst (fst (_ord2ymd (toordinal t))).
Definition month (t : datetime) : Z := snd (fst (_ord2ymd (toordinal t))).
Definition day (t : datetime) : Z := snd (_ord2ymd (toordinal t)).
Definition hour (t : datetime) : Z := dayus t / 3600000000.
Definition minute (t : datetime) : Z := dayus t / 60000000 mod 60.
Definition second (t : datetime) : Z := dayus t / 1000000 mod 60.
Definition microsecond (t : datetime) : Z := dayus t mod 1000000.

(** [datetime(year, month, day, hour, minute, second, microsecond)]:
    ValueError when a field is out of range. *)
Definition new (y m d hh mm ss us : Z) : result datetime :=
  if (MINYEAR <=? y) && (y <=? MAXYEAR) && (1 <=? m) && (m <=? 12)
     && (1 <=? d) && (d <=? _days_in_month y m)
     && (0 <=? hh) && (hh <=? 23) && (0 <=? mm) && (mm <=? 59)
     && (0 <=? ss) && (ss <=? 59) && (0 <=? us) && (us <=? 999999)
  then Ok (mkdt (_ymd2ord y m d)
                (hh * 3600000000 + mm * 60000000 + ss * 1000000 + us))
  else Raise ValueError.

(** [t.weekday()]: Monday is 0. *)
Definition weekday (t : datetime) : Z := (toordinal t + 6) mod 7.

(** [t.isoweekday()]: Monday is 1, Sunday is 7. *)
Definition isoweekday (t : datetime) : Z :=
  if toordinal t mod 7 =? 0 then 7 else toordinal t mod 7.

(** [t.replace(hour=0, minute=0, second=0, microsecond=0)] *)
Definition midnight (t : datetime) : datetime := mkdt (toordinal t) 0.

(** Microseconds since the start of day 0. *)
Definition instant (t : datetime) : Z := toordinal t * US_PER_DAY + dayus t.

(** [t + d]: OverflowError outside 0001-01-01 .. 9999-12-31. *)
Definition add (t : datetime) (d : timedelta) : result datetime :=
  let i := instant t + d in
  let days := i / US_PER_DAY in
  if (0 <? days) && (days <=? _MAXORDINAL)
  then Ok (mkdt days (i mod US_PER_DAY))
  else Raise OverflowError.

(** [t - d] for a timedelta [d]. *)
Definition sub (t : datetime) (d : timedelta) : result datetime := add t (- d).

(** [a - b] for two datetimes. *)
Definition diff (a b : datetime) : timedelta := instant a - instant b.

Definition leb (a b : datetime) : bool := instant a <=? instant b.
Definition le (a b : datetime) : Prop := instant a <= instant b.

(** [strftime("%y")]: the year without century. *)
Definition strftime_y (t : datetime) : Z := year t mod 100.

End Datetime.
Import Datetime.

(** ** Value decoders *)

(** [_decode_cardnr(number)] *)
Definition _decode_cardnr (number : bytes) : result Z :=
  if negb (bytes_eqb (slice number 0 1) [x00]) then
    Raise (SIReaderException "Unknown card series")
  else
    let nr := _to_int (slice number 1 4) in
    if nr <? 500000 then
      let ret := _to_int (slice number 2 4) in
      let? series := index number 1 in
      if series <? 2 then Ok ret
      else Ok (series * 100000 + ret)
    else Ok nr.

(** [_decode_time(raw_time, raw_ptd, reftime)]; [now] is the value of
    [datetime.now()], read only when no reference time is passed. *)
Definition _decode_time (now : datetime) (raw_time : bytes)
    (raw_ptd : option byte) (reftime : option datetime)
  : result (option datetime) :=
  if bytes_eqb raw_time TIME_RESET then Ok None
  else
    let? reftime :=
      match reftime with
      | Some r => Ok r
      | None => add now (mktd 0 2 0 0 0)
      end in
    let punchtime := mktd 0 0 0 (_to_int raw_time) 0 in
    match raw_ptd with
    | Some raw_ptd =>
        let ptd := byte2int raw_ptd in
        let punchtime :=
          if Z.land ptd 1 =? 1 then punchtime + mktd 0 12 0 0 0
          else punchtime in
        let dow := (Z.shiftr (Z.land ptd 14) 1 - 1) mod 7 in
        let? reftime :=
          if (weekday reftime =? dow)
             && (mktd 0 (hour reftime) (minute reftime) (second reftime) 0
                 <? punchtime)
          then sub reftime (mktd 7 0 0 0 0)
          else sub reftime (mktd ((weekday reftime - dow) mod 7) 0 0 0 0) in
        let ref_day := midnight reftime in
        let? r := add ref_day punchtime in
        Ok (Some r)
    | None =>
        let ref_day := midnight reftime in
        let ref_hour := diff reftime ref_day in
        let t_noon := mktd 0 12 0 0 0 in
        if ref_hour <? t_noon then
          if punchtime <? ref_hour then
            let? r := add ref_day punchtime in Ok (Some r)
          else
            let? r0 := sub ref_day t_noon in
            let? r := add r0 punchtime in Ok (Some r)
        else
          if punchtime <? ref_hour - t_noon then
            let? r0 := add ref_day t_noon in
            let? r := add r0 punchtime in Ok (Some r)
          else
            let? r := add ref_day punchtime in Ok (Some r)
    end.

(** ** The serial port

    [pyserial]'s [Serial] object with the station attached to it: the
    bytes that are still to arrive on the line ([in_buffer]), what has
    been written ([written]), and the station itself ([peer]), which
    answers a written frame by putting bytes on the line.  A [read(n)]
    returns the next [n] bytes; when fewer arrive before the timeout it
    returns what there is, possibly nothing. *)

Record Serial : Type := mkSerial {
  in_buffer : bytes;
  written : list bytes;
  peer : bytes -> bytes
}.

(** The dict [proto_config]; a key that has not been set yet is [None]. *)
Record ProtoConfig : Type := mkProtoConfig {
  ext_proto : option bool;
  auto_send : option bool;
  handshake : option bool;
  pw_access : option bool;
  punch_read : option bool;
  mode : option Z
}.

(** The attributes of an [SIReader] / [SIReaderControl] object. *)
Record SIReader : Type := mkSIReader {
  _serial : Serial;
  proto_config : option ProtoConfig;
  _station_code : option Z;
  _serno : Z;
  direct : bool;
  _noconnect : bool;
  _next_offset : option Z
}.

Definition set_serial (f : Serial -> Serial) (r : SIReader) : SIReader :=
  mkSIReader (f (_serial r)) (proto_config r) (_station_code r) (_serno r)
             (direct r) (_noconnect r) (_next_offset r).

Definition set_proto_config (c : option ProtoConfig) (r : SIReader) : SIReader :=
  mkSIReader (_serial r) c (_station_code r) (_serno r)
             (direct r) (_noconnect r) (_next_offset r).

Definition set_station_code (c : option Z) (r : SIReader) : SIReader :=
  mkSIReader (_serial r) (proto_config r) c (_serno r)
             (direct r) (_noconnect r) (_next_offset r).

Definition set_serno (n : Z) (r : SIReader) : SIReader :=
  mkSIReader (_serial r) (proto_config r) (_station_code r) n
             (direct r) (_noconnect r) (_next_offset r).

Definition set_next_offset (o : option Z) (r : SIReader) : SIReader :=
  mkSIReader (_serial r) (proto_config r) (_station_code r) (_serno r)
             (direct r) (_noconnect r) o.

(** ** Methods: state passing with exceptions

    A method takes the object and returns either a value or an exception,
    together with the object as the call left it (attribute updates made
    before an exception is raised stay). *)

Definition M (A : Type) : Type := SIReader -> result A * SIReader.

Definition ret {A} (a : A) : M A := fun r => (Ok a, r).

Definition raise {A} (e : exn) : M A := fun r => (Raise e, r).

Definition bind {A B} (m : M A) (k : A -> M B) : M B :=
  fun r =>
    match m r with
    | (Ok a, r') => k a r'
    | (Raise e, r') => (Raise e, r')
    end.

Definition lift {A} (x : result A) : M A := fun r => (x, r).

Definition gets {A} (f : SIReader -> A) : M A := fun r => (Ok (f r), r).

Definition modify (f : SIReader -> SIReader) : M unit := fun r => (Ok tt, f r).

Declare Scope method_scope.
Delimit Scope method_scope with method.
Notation "x <- m ;; k" := (bind m (fun x => k))
  (at level 61, m at next level, right associativity) : method_scope.
Notation "' pat <- m ;; k" :=
  (bind m (fun x => match x with pat => k end))
  (at level 61, pat pattern, m at next level, right associativity) : method_scope.
Notation "m ;;; k" := (bind m (fun _ => k))
  (at level 61, right associativity) : method_scope.
Open Scope method_scope.

(** [self._serial.read(size)] *)
Definition serial_read (size : Z) : M bytes :=
  fun r =>
    let n := Z.to_nat size in
    let buf := in_buffer (_serial r) in
    (Ok (firstn n buf),
     set_serial (fun s => mkSerial (skipn n buf) (written s) (peer s)) r).

(** [self._serial.write(data)]: the station's answer is put on the line. *)
Definition serial_write (data : bytes) : M unit :=
  modify (set_serial (fun s =>
    mkSerial (in_buffer s ++ peer s data) (written s ++ [data]) (peer s))).

(** [self._serial.inWaiting()] *)
Definition serial_inWaiting : M Z :=
  gets (fun r => Z.of_nat (List.length (in_buffer (_serial r)))).

(** [self._serial.flushInput()] *)
Definition serial_flushInput : M unit :=
  modify (set_serial (fun s => mkSerial [] (written s) (peer s))).

(** ** String formatting *)

Definition str_of_int (i : Z) : string :=
  DecimalString.NilZero.string_of_int (Z.to_int i).

Definition hex_digit (upper : bool) (d : Z) : string :=
  let lower :=
    (["0";"1";"2";"3";"4";"5";"6";"7";"8";"9";"a";"b";"c";"d";"e";"f"])%string in
  let uppers :=
    (["0";"1";"2";"3";"4";"5";"6";"7";"8";"9";"A";"B";"C";"D";"E";"F"])%string in
  nth (Z.to_nat d) (if upper then uppers else lower) ""%string.

(** [hex(i)] for 0 <= i < 256. *)
Definition hex (i : Z) : string :=
  let hi := if i <? 16 then EmptyString else hex_digit false (i / 16) in
  let lo := hex_digit false (i mod 16) in
  ("0x" ++ hi ++ lo)%string.

(** ["%X" % i] for 0 <= i < 16. *)
Definition fmt_X (i : Z) : string := hex_digit true i.

(** ** The frame codec *)

(** [byte2int] applied to a bytes object: its first byte. *)
Definition byte2int_of (x : bytes) : result Z := index x 0.

(** [_read_command]: the reply [(cmd, data)] of the station. *)
Definition _read_command : M (bytes * bytes) :=
  char <- serial_read 1 ;;
  char <- (if bytes_eqb char [WAKEUP] then serial_read 1 else ret char) ;;
  (if bytes_eqb char [] then raise (SIReaderTimeout "No data available")
   else if bytes_eqb char [NAK] then
     raise (SIReaderException "Invalid command or parameter.")
   else if negb (bytes_eqb char [STX]) then
     serial_flushInput ;;;
     c <- lift (byte2int_of char) ;;
     raise (SIReaderException ("Invalid start byte " ++ hex c)%string)
   else ret tt) ;;;
  cmd <- serial_read 1 ;;
  length <- serial_read 1 ;;
  station <- serial_read 2 ;;
  modify (set_station_code (Some (_to_int station))) ;;;
  len <- lift (byte2int_of length) ;;
  data <- serial_read (len - 2) ;;
  crc <- serial_read 2 ;;
  etx <- serial_read 1 ;;
  if negb (bytes_eqb etx [ETX]) then
    raise (SIReaderException "No ETX byte received.")
  else if negb (_crc_check (cmd ++ length ++ station ++ data) crc) then
    raise (SIReaderException "CRC check failed")
  else ret (cmd, data).

(** The frame [STX + command_string + crc + ETX] that [_send_command]
    assembles, with the WAKEUP byte in front unless [skipwakeup]. *)
Definition request_frame (skipwakeup : bool) (command parameters : bytes)
  : result bytes :=
  let? len := int2byte (Z.of_nat (List.length parameters)) in
  let command_string := command ++ len ++ parameters in
  let? crc := _crc command_string in
  let cmd := [STX] ++ command_string ++ crc ++ [ETX] in
  Ok (if negb skipwakeup then [WAKEUP] ++ cmd else cmd).

(** [_send_command(command, parameters, skipwakeup=...)] *)
Definition _send_command_kw (skipwakeup : bool) (command parameters : bytes)
  : M (bytes * bytes) :=
  n <- serial_inWaiting ;;
  (if negb (n =? 0) then
     raise (SIReaderException
       ("Input buffer must be empty before sending command."
        ++ " Currently " ++ str_of_int n ++ " bytes in the input buffer.")%string)
   else ret tt) ;;;
  cmd <- lift (request_frame skipwakeup command parameters) ;;
  serial_write cmd ;;;
  _read_command.

Definition _send_command : bytes -> bytes -> M (bytes * bytes) :=
  _send_command_kw false.

(** ** Protocol configuration *)

(** [self.proto_config[key]]: TypeError while [proto_config] is [None],
    KeyError while the key is not set. *)
Definition proto_get {A} (key : ProtoConfig -> option A) : M A :=
  fun r =>
    match proto_config r with
    | None => (Raise TypeError, r)
    | Some c =>
        match key c with
        | Some v => (Ok v, r)
        | None => (Raise KeyError, r)
        end
    end.

Definition proto_update (f : ProtoConfig -> ProtoConfig) : M unit :=
  fun r =>
    match proto_config r with
    | None => (Raise TypeError, r)
    | Some c => (Ok tt, set_proto_config (Some (f c)) r)
    end.

(** [_extract_sysval(bytearr, offset, length)] *)
Definition _extract_sysval (bytearr : bytes) (offset : byte) (length : nat)
  : bytes :=
  let start := Z.to_nat (byte2int offset + 1) in
  slice bytearr start (start + length).

(** [_update_proto_config()] *)
Definition _update_proto_config : M unit :=
  modify (set_proto_config
            (Some (mkProtoConfig None None None None None None))) ;;;
  noconnect <- gets _noconnect ;;
  if noconnect then
    proto_update (fun _ =>
      mkProtoConfig (Some true) (Some true) (Some false) (Some false)
                    (Some false) (Some 2)) ;;;
    modify (set_serno 0) ;;;
    modify (set_station_code (Some 0))
  else
    '(_, sysval) <- _send_command [C_GET_SYS_VAL] [x00; x80] ;;
    config_byte <- lift (byte2int_of (_extract_sysval sysval O_PROTO 1)) ;;
    proto_update (fun c =>
      mkProtoConfig (Some (negb (Z.land config_byte 1 =? 0)))
                    (Some (negb (Z.land config_byte 2 =? 0)))
                    (Some (negb (Z.land config_byte 4 =? 0)))
                    (Some (negb (Z.land config_byte 16 =? 0)))
                    (Some (negb (Z.land config_byte 128 =? 0)))
                    (mode c)) ;;;
    mode_byte <- lift (byte2int_of (_extract_sysval sysval O_MODE 1)) ;;
    proto_update (fun c =>
      mkProtoConfig (ext_proto c) (auto_send c) (handshake c) (pw_access c)
                    (punch_read c) (Some mode_byte)) ;;;
    modify (set_serno (_to_int (_extract_sysval sysval O_SERIAL_NO 4))).

(** ** Station time *)

(** The decoding of the reply to GET_TIME in [get_time]. *)
Definition get_time_decode (bintime : bytes) : result (option datetime) :=
  let? b0 := index bintime 0 in
  let year := b0 + 2000 in
  let? month := index bintime 1 in
  let? day := index bintime 2 in
  let? b3 := index bintime 3 in
  let am_pm := Z.land b3 1 in
  let second := _to_int (slice bintime 4 6) in
  let hour := am_pm * 12 + second / 3600 in
  let second := second mod 3600 in
  let minute := second / 60 in
  let second := second mod 60 in
  let? b6 := index bintime 6 in
  let? ms := py_round (PrimFloat.mul (PrimFloat.div (float_of_int b6) 256)
                                     1000000) in
  match Datetime.new year month day hour minute second ms with
  | Ok t => Ok (Some t)
  | Raise ValueError => Ok None
  | Raise e => Raise e
  end.

Definition get_time : M (option datetime) :=
  '(_, bintime) <- _send_command [C_GET_TIME] [] ;;
  lift (get_time_decode bintime).

(** The seven bytes that [set_time] sends. *)
Definition set_time_bintime (time : datetime) : result bytes :=
  let? yy := _to_str (strftime_y time) 1 in
  let? mm := _to_str (Datetime.month time) 1 in
  let? dd := _to_str (Datetime.day time) 1 in
  let? td := _to_str (Z.shiftl (isoweekday time mod 7) 1
                      + Datetime.hour time / 12) 1 in
  let? secs := _to_str (Datetime.hour time mod 12 * 3600
                        + Datetime.minute time * 60
                        + Datetime.second time) 2 in
  let? frac := py_round (PrimFloat.mul
                           (PrimFloat.div
                              (float_of_int (Datetime.microsecond time))
                              1000000)
                           256) in
  let? ms := _to_str frac 1 in
  Ok (yy ++ mm ++ dd ++ td ++ secs ++ ms).

Definition set_time (time : datetime) : M unit :=
  bintime <- lift (set_time_bintime time) ;;
  _send_command [C_SET_TIME] bintime ;;;
  ret tt.

(** ** Backup memory *)

Definition punch_record : Type := datetime * Z * string.

(** The body of the record loop of [read_backup] in extended protocol. *)
Definition decode_bux_punch (punch : bytes) : result punch_record :=
  let err := EmptyString in
  let secs := 0 in
  let us := 0 in
  let cardnr_bytes := [x00] ++ slice punch BUX_CN (BUX_CN + 3) in
  let? cardnr := _decode_cardnr cardnr_bytes in
  let? ym := index punch BUX_YM in
  let year := 2000 + Z.shiftr ym 2 in
  let? mdap := index punch BUX_MDAP in
  let month := Z.shiftl (Z.land ym 3) 2 + Z.shiftr mdap 6 in
  let day := Z.shiftr (Z.land mdap 63) 1 in
  let ampm := Z.land mdap 1 in
  let? s0 := index punch BUX_SECS in
  let? (err, secs, us) :=
    if 240 <=? s0 then
      Ok (("Err" ++ fmt_X (Z.land s0 15))%string, secs, us)
    else
      let secs := _to_int (slice punch BUX_SECS (BUX_SECS + 2)) in
      let? us := py_round
                   (PrimFloat.div
                      (PrimFloat.mul 1000000
                         (float_of_int
                            (_to_int (slice punch BUX_MS (BUX_MS + 1)))))
                      256) in
      Ok (err, secs, us) in
  let '(month, year, err) :=
    if month =? 0 then (month + 12, year - 1, (err ++ "ErrDate")%string)
    else (month, year, err) in
  let '(month, year, err) :=
    if 12 <? month then (month - 12, year + 1, (err ++ "ErrDate")%string)
    else (month, year, err) in
  let secs := secs + 12 * 3600 * ampm in
  let? date := Datetime.new year month day 0 0 0 0 in
  let? punch_datetime := add date (mktd 0 0 0 secs us) in
  Ok (punch_datetime, cardnr, err).

(** ["\x00" + punch[...]]: a [str] and a [bytes] object cannot be
    concatenated. *)
Definition str_add_bytes (s : string) (b : bytes) : result bytes :=
  Raise TypeError.

(** The weekday expression of the legacy branch,
    [((punch[BUL_PTD] & 0x0E) >> 1 - 1) % 7]: [-] binds tighter than [>>]
    in Python, so the shift count is [1 - 1]. *)
Definition bul_weekday (ptd : Z) : Z :=
  Z.shiftr (Z.land ptd 14) (1 - 1) mod 7.

(** The body of the record loop of [read_backup] in legacy protocol. *)
Definition decode_bul_punch (now : datetime) (punch : bytes)
  : result punch_record :=
  let now_weekday := weekday now in
  let secs_since_midnight :=
    PrimFloat.div (float_of_int (diff now (midnight now))) 1000000 in
  let err := EmptyString in
  let secs := 0 in
  let? cardnr_bytes :=
    (let? b := str_add_bytes (String "000"%char EmptyString)
                             (slice punch BUL_CNS (BUL_CNS + 1)) in
     Ok (b ++ slice punch BUL_CN (BUL_CN + 2))) in
  let? cardnr := _decode_cardnr cardnr_bytes in
  let? ptd := index punch BUL_PTD in
  let weekday := bul_weekday ptd in
  let ampm := Z.land ptd 1 in
  let? s0 := index punch BUL_SECS in
  let '(err, secs) :=
    if 240 <=? s0 then (("Err" ++ fmt_X (Z.land s0 15))%string, secs)
    else (err, _to_int (slice punch BUL_SECS (BUL_SECS + 2))) in
  let secs := secs + 12 * 3600 * ampm in
  let day_offset :=
    if PrimFloat.ltb
         (float_of_int (weekday * 24 * 3600 + secs))
         (PrimFloat.add
            (PrimFloat.add (float_of_int (now_weekday * 24 * 3600))
                           secs_since_midnight)
            3600)
    then now_weekday - weekday
    else now_weekday - weekday + 7 in
  let? punch_datetime := add (midnight now) (mktd day_offset 0 0 secs 0) in
  Ok (punch_datetime, cardnr, err).

(** The first loop of [read_backup]: fetch the used backup memory in
    requests of at most 0x80 bytes.  Every pass advances [read_ptr] by at
    least one, so [fuel = end_ptr - read_ptr] passes are enough. *)
Fixpoint read_backup_fetch (fuel : nat) (end_ptr read_ptr : Z)
    (bakmem : bytes) : M bytes :=
  match fuel with
  | O => ret bakmem
  | S fuel' =>
      if read_ptr <? end_ptr then
        b2 <- lift (int2byte (Z.shiftr read_ptr 16)) ;;
        b1 <- lift (int2byte (Z.land (Z.shiftr read_ptr 8) 255)) ;;
        b0 <- lift (int2byte (Z.land read_ptr 255)) ;;
        let read_ptr_bytes := b2 ++ b1 ++ b0 in
        byte_cnt <- (if end_ptr - read_ptr <? 128
                     then lift (int2byte (end_ptr - read_ptr))
                     else ret [x80]) ;;
        ' (_, ret_) <- _send_command [C_GET_BACKUP]
                                     (read_ptr_bytes ++ byte_cnt) ;;
        ext <- proto_get ext_proto ;;
        let bakmem :=
          if ext : bool then bakmem ++ slice_from ret_ (BUX_FIRST + 1)
          else bakmem ++ slice_from ret_ (BUL_FIRST + 1) in
        cnt <- lift (byte2int_of byte_cnt) ;;
        read_backup_fetch fuel' end_ptr (read_ptr + cnt) bakmem
      else ret bakmem
  end.

(** The second loop of [read_backup]: decode [bakmem] record by record.
    [step] is the record size the first loop has set (BUX_SIZE in extended
    protocol, BUL_SIZE otherwise); [fuel = len(bakmem)] passes are enough. *)
Fixpoint read_backup_decode (fuel : nat) (now : datetime) (ii : nat)
    (bakmem : bytes) (res : list punch_record) : M (list punch_record) :=
  match fuel with
  | O => ret res
  | S fuel' =>
      if (ii <? List.length bakmem)%nat then
        ext <- proto_get ext_proto ;;
        let step := if ext : bool then BUX_SIZE else BUL_SIZE in
        let punch := slice bakmem ii (ii + step) in
        rec <- lift (if ext then decode_bux_punch punch
                     else decode_bul_punch now punch) ;;
        read_backup_decode fuel' now (ii + step)%nat bakmem (res ++ [rec])
      else ret res
  end.

Definition lookup_mode_name (m : Z) : result string :=
  match find (fun kv => fst kv =? m) MODE2NAME with
  | Some kv => Ok (snd kv)
  | None => Raise KeyError
  end.

(** [read_backup()]; [now] is the value of [datetime.now()].  The progress
    dots are not modelled. *)
Definition read_backup (now : datetime) : M (list punch_record) :=
  _update_proto_config ;;;
  m <- proto_get mode ;;
  (if negb (existsb (Z.eqb m) SUPPORTED_READ_BACKUP_MODES) then
     name <- lift (lookup_mode_name m) ;;
     raise (SIReaderException
              ("Station is in unsupported mode: " ++ name)%string)
   else ret tt) ;;;
  ' (_, ret_) <- _send_command [C_GET_SYS_VAL] [x00; x80] ;;
  let offs1 := Z.to_nat (byte2int O_BACKUP_PTR_HI + 1) in
  let offs2 := Z.to_nat (byte2int O_BACKUP_PTR_LO + 1) in
  let end_ptr :=
    _to_int (slice ret_ offs1 (offs1 + 2) ++ slice ret_ offs2 (offs2 + 2)) in
  bakmem <- read_backup_fetch (Z.to_nat (end_ptr - 256)) end_ptr 256 [] ;;
  read_backup_decode (List.length bakmem) now 0 bakmem [].

(** ** sireader_control.py: the autosend poller *)

Definition punch : Type := Z * option datetime.

(** [_read_punch(offset)] *)
Definition _read_punch (now : datetime) (offset : Z) : M punch :=
  o <- lift (_to_str offset 3) ;;
  l <- lift (int2byte REC_LEN) ;;
  ' (_, data) <- _send_command [C_GET_BACKUP] (o ++ l) ;;
  cn <- lift (_decode_cardnr ([x00] ++ slice data BC_CN (BC_CN + 3))) ;;
  t <- lift (_decode_time now (slice data BC_TIME (BC_TIME + 2)) None None) ;;
  ret (cn, t).

(** [while self._next_offset < cur_offset: ...] (entered only when
    [_next_offset] is not None). *)
Fixpoint recover_lost (fuel : nat) (now : datetime) (cur_offset : Z)
    (punches : list punch) : M (list punch) :=
  match fuel with
  | O => ret punches
  | S fuel' =>
      no <- gets _next_offset ;;
      match no with
      | None => raise TypeError
      | Some next_offset =>
          if next_offset <? cur_offset then
            p <- _read_punch now next_offset ;;
            modify (set_next_offset (Some (next_offset + REC_LEN))) ;;;
            recover_lost fuel' now cur_offset (punches ++ [p])
          else ret punches
      end
  end.

(** [try: m  except SIReaderTimeout: ...]: [None] when the timeout was
    caught. *)
Definition except_timeout {A} (m : M A) : M (option A) :=
  fun r =>
    match m r with
    | (Ok a, r') => (Ok (Some a), r')
    | (Raise (SIReaderTimeout _), r') => (Ok None, r')
    | (Raise e, r') => (Raise e, r')
    end.

Definition dquote : string := String "034"%char EmptyString.

(** The loop [while True: ... else: raise SIReaderException("Unexpected
    command ...")] of [poll_punch].  The [else] clause belongs to the
    [while]: it runs when the loop condition becomes false, and the
    condition is the constant [True].  [c] is the last reply read.  The
    loop runs until a read times out; [None] is returned when [fuel]
    passes were not enough to get there. *)
Fixpoint poll_punch_loop (fuel : nat) (now : datetime)
    (c : option (bytes * bytes)) (punches : list punch)
  : M (option (list punch)) :=
  match fuel with
  | O => ret None
  | S fuel' =>
      if true then
        oc <- except_timeout _read_command ;;
        match oc with
        | None => ret (Some punches)
        | Some c =>
            punches <-
              (if bytes_eqb (fst c) [C_TRANS_REC] then
                 let cur_offset :=
                   _to_int (slice (snd c) T_OFFSET (T_OFFSET + 3)) in
                 no <- gets _next_offset ;;
                 punches <-
                   match no with
                   | Some next_offset =>
                       recover_lost (Z.to_nat (cur_offset - next_offset))
                                    now cur_offset punches
                   | None => ret punches
                   end ;;
                 modify (set_next_offset (Some (cur_offset + REC_LEN))) ;;;
                 ret punches
               else ret punches) ;;
            cn <- lift (_decode_cardnr (slice (snd c) T_CN (T_CN + 4))) ;;
            t <- lift (_decode_time now
                         (slice (snd c) T_TIME (T_TIME + 2)) None None) ;;
            poll_punch_loop fuel' now (Some c) (punches ++ [(cn, t)])
        end
      else
        match c with
        | Some c =>
            c0 <- lift (byte2int_of (fst c)) ;;
            raise (SIReaderException
                     ("Unexpected command " ++ hex c0 ++ " received")%string)
        | None => raise NameError
        end
  end.

(** [poll_punch(timeout)]; a read that times out is a read from an empty
    line. *)
Definition poll_punch (fuel : nat) (now : datetime)
  : M (option (list punch)) :=
  ext <- proto_get ext_proto ;;
  if negb ext then
    raise (SIReaderException
             ("This command only supports stations in " ++ dquote
              ++ "Extended Protocol" ++ dquote ++ " mode. Switch mode first")%string)
  else
    au <- proto_get auto_send ;;
    if negb au then
      raise (SIReaderException
               ("This command only supports stations in " ++ dquote
                ++ "Autosend" ++ dquote ++ " mode. Switch mode first")%string)
    else poll_punch_loop fuel now None [].

(** ** Station configuration *)

Definition O_STATION_CODE : byte := x72.
Definition O_FEEDBACK : byte := x73.
Definition O_ACTIVE_TIME : byte := x7e.
Definition SUPPORTED_MODES : list Z :=
  [M_CONTROL; M_START; M_FINISH; M_READOUT; M_CLEAR; M_CHECK].

(** [try: body  finally: fin]: [fin] runs whatever [body] did; an
    exception of [fin] replaces the outcome of [body]. *)
Definition finally_ {A} (body : M A) (fin : M unit) : M A :=
  fun r =>
    match body r with
    | (res, r') =>
        match fin r' with
        | (Ok _, r'') => (res, r'')
        | (Raise e, r'') => (Raise e, r'')
        end
    end.


Module Config.

(** The parameters of the SET_SYS_VAL command of [set_station_code]:
    offset, low byte, and the high byte with its lower six bits set. *)
Definition station_code_params (code : Z) : result bytes :=
  let? code_low := int2byte (Z.land code 255) in
  let? code_high := int2byte (Z.lor (Z.shiftr code 2) 63) in
  Ok ([O_STATION_CODE] ++ code_low ++ code_high).

(** [set_operating_mode(mode)] *)
Definition set_operating_mode (mode : Z) : M unit :=
  if negb (existsb (Z.eqb mode) SUPPORTED_MODES) then
    raise (SIReaderException
             ("Unsupported mode '" ++ str_of_int mode ++ "'!")%string)
  else
    finally_ (p <- lift (int2byte mode) ;;
              _send_command [C_SET_SYS_VAL] ([O_MODE] ++ p) ;;; ret tt)
             _update_proto_config.

(** The station code that [sysval_code] reads from a SYS_VAL image. *)
Definition sysval_code_of (sysval : bytes) : Z :=
  let code_low := _to_int (_extract_sysval sysval O_STATION_CODE 1) in
  let feedback := _to_int (_extract_sysval sysval O_FEEDBACK 1) in
  code_low + Z.shiftl (Z.land feedback 192) 2.

(** [self.sysval] is passed in and handed back: it is re-read from the
    station when shorter than 0x80 bytes ([refresh_sysval]). *)
Definition refresh_if_short (sysval : bytes) : M bytes :=
  if (List.length sysval <? 128)%nat then
    ' (_, data) <- _send_command [C_GET_SYS_VAL] [x00; x80] ;;
    ret data
  else ret sysval.

(** [sysval_code()] *)
Definition sysval_code (sysval : bytes) : M (Z * bytes) :=
  sysval <- refresh_if_short sysval ;;
  let code := sysval_code_of sysval in
  modify (set_station_code (Some code)) ;;;
  ret (code, sysval).

(** [set_station_code(code)] *)
Definition set_station_code (code : Z) : M unit :=
  if (code <? 1) || (1023 <? code) then
    raise (SIReaderException
             ("Invalid control code: '" ++ str_of_int code
              ++ "'! Supported code range: 1-1023.")%string)
  else
    params <- lift (station_code_params code) ;;
    finally_ (_send_command [C_SET_SYS_VAL] params ;;; ret tt)
             _update_proto_config.

(** The protocol byte that [_set_proto_config] builds from the dict. *)
Definition proto_config_byte (config : ProtoConfig) : result Z :=
  let get (v : option bool) : result Z :=
    match v with
    | Some b => Ok (Z.b2z b)
    | None => Raise KeyError
    end in
  let? e := get (ext_proto config) in
  let? a := get (auto_send config) in
  let? h := get (handshake config) in
  let? p := get (pw_access config) in
  let? r := get (punch_read config) in
  Ok (Z.lor (Z.lor (Z.lor (Z.lor (Z.shiftl e 0) (Z.shiftl a 1))
                          (Z.shiftl h 2)) (Z.shiftl p 4)) (Z.shiftl r 7)).

(** [_set_proto_config(config)] *)
Definition _set_proto_config (config : ProtoConfig) : M unit :=
  finally_ (config_byte <- lift (let? v := proto_config_byte config in
                                 int2byte v) ;;
            _send_command [C_SET_SYS_VAL] ([O_PROTO] ++ config_byte) ;;;
            ret tt)
           _update_proto_config.

(** The feedback byte that [set_feedback] sends. *)
Definition feedback_byte (feedback : Z) (audible optical : bool) : Z :=
  let feedback :=
    if optical then Z.lor feedback 1 else Z.land feedback (Z.lnot 1) in
  if audible then Z.lor feedback 4 else Z.land feedback (Z.lnot 4).

(** [set_feedback(audible, optical)] *)
Definition set_feedback (sysval : bytes) (audible optical : bool)
  : M bytes :=
  sysval <- refresh_if_short sysval ;;
  let feedback := _to_int (_extract_sysval sysval O_FEEDBACK 1) in
  p <- lift (int2byte (feedback_byte feedback audible optical)) ;;
  _send_command [C_SET_SYS_VAL] ([O_FEEDBACK] ++ p) ;;;
  ret sysval.

End Config.

(** ** Vocabulary of the statements *)

(** The weekday (Monday = 0) that [_decode_time] reads from a PTD byte. *)
Definition ptd_weekday (ptd : byte) : Z :=
  (Z.shiftr (Z.land (byte2int ptd) 14) 1 - 1) mod 7.

Definition twelve_hours : timedelta := mktd 0 12 0 0 0.

(** The reading of "the SI5 and SI6 result ranges are disjoint at the
    500000 threshold": a number decoded by the SI5 rule is below 500000
    and a number decoded by the SI6 rule is not. *)
Definition si5_si6_disjoint : Prop :=
  forall (s5 h5 l5 s6 h6 l6 : byte) (r5 r6 : Z),
    _to_int [s5; h5; l5] < 500000 ->
    500000 <= _to_int [s6; h6; l6] ->
    _decode_cardnr [x00; s5; h5; l5] = Ok r5 ->
    _decode_cardnr [x00; s6; h6; l6] = Ok r6 ->
    r5 < 500000 <= r6.

(** The integer nearest to [num / den], halves to the even neighbour:
    [round] in exact arithmetic. *)
Definition round_half_even (num den : Z) : Z :=
  let q := num / den in
  let r := num mod den in
  if 2 * r <? den then q
  else if den <? 2 * r then q + 1
  else if Z.even q then q else q + 1.

(** [P] holds on the [n] integers from [start] on. *)
Fixpoint range_all (P : Z -> bool) (n : nat) (start : Z) : bool :=
  match n with
  | O => true
  | S n' => if P start then range_all P n' (start + 1) else false
  end.

(** The sub-second byte of [set_time]:
    [int(round(time.microsecond / 1000000.0 * 256))]. *)
Definition set_time_frac (us : Z) : result Z :=
  py_round (PrimFloat.mul (PrimFloat.div (float_of_int us) 1000000) 256).

(** The sub-second byte computed by [set_time] is 256. *)
Definition set_time_frac_256 (us : Z) : bool :=
  match set_time_frac us with
  | Ok f => f =? 256
  | Raise _ => false
  end.

(** A float that is not a negative finite number. *)
Definition sf_not_negative (f : spec_float) : Prop :=
  forall s m e, f = S754_finite s m e -> s = false.


(** The GET_BACKUP request for [cnt] bytes at address [addr]. *)
Definition backup_request_frame (addr cnt : Z) : result bytes :=
  let? a := _to_str addr 3 in
  let? c := int2byte cnt in
  request_frame false [C_GET_BACKUP] (a ++ c).

(** The pages [(address, count)] that cover [read_ptr .. end_ptr) in
    steps of at most 0x80 bytes. *)
Fixpoint backup_requests (fuel : nat) (end_ptr read_ptr : Z) : list (Z * Z) :=
  match fuel with
  | O => []
  | S fuel' =>
      if read_ptr <? end_ptr then
        let cnt := Z.min 128 (end_ptr - read_ptr) in
        (read_ptr, cnt) :: backup_requests fuel' end_ptr (read_ptr + cnt)
      else []
  end.

(** A station that answers every GET_BACKUP request for 1..128 bytes with
    a well-formed frame carrying three header bytes and as many payload
    bytes as were asked for. *)
Definition backup_station (p : bytes -> bytes) : Prop :=
  forall (addr cnt : Z) (frame : bytes),
    0 <= addr < 2 ^ 24 -> 1 <= cnt <= 128 ->
    backup_request_frame addr cnt = Ok frame ->
    exists (cmd len s1 s2 : byte) (data crc : bytes),
      p frame = STX :: cmd :: len :: s1 :: s2 :: data ++ crc ++ [ETX]
      /\ Z.of_nat (List.length data) = 3 + cnt
      /\ Z.of_nat (List.length data) = byte2int len - 2
      /\ _crc ([cmd; len; s1; s2] ++ data) = Ok crc.

(** The frame a station sends for [(cmd, station, data)], in the layout
    that [_read_command] parses (empty when the data does not fit). *)
Definition station_reply (cmd s1 s2 : byte) (data : bytes) : bytes :=
  match int2byte (Z.of_nat (List.length data) + 2) with
  | Ok [len] =>
      match _crc ([cmd; len; s1; s2] ++ data) with
      | Ok crc => STX :: cmd :: len :: s1 :: s2 :: data ++ crc ++ [ETX]
      | Raise _ => []
      end
  | _ => []
  end.

(** A station with backup memory [mem]: it answers a GET_BACKUP request
    for [cb] bytes at address [a2 a1 a0] with the address and the bytes
    stored there. *)
Definition memory_station (mem : Z -> byte) (frame : bytes) : bytes :=
  match frame with
  | [_; _; _; _; a2; a1; a0; cb; _; _; _] =>
      let addr := _to_int [a2; a1; a0] in
      station_reply x81 x00 x2a
        ([a2; a1; a0]
         ++ map (fun i => mem (addr + Z.of_nat i))
                (seq 0 (Z.to_nat (byte2int cb))))
  | _ => []
  end.

(** The float expression of [get_time] agrees with exact rounding. *)
Definition get_time_ms_ok (b : Z) : bool :=
  match py_round (PrimFloat.mul (PrimFloat.div (float_of_int b) 256) 1000000)
  with
  | Ok f => f =? round_half_even (b * 1000000) 256
  | Raise _ => false
  end.

(** The calendar conversions are inverse to each other on a day. *)
Definition ordinal_ok (n : Z) : bool :=
  let '(y, m, d) := _ord2ymd n in
  (1 <=? m) && (m <=? 12) && (1 <=? d) && (d <=? _days_in_month y m)
  && (_ymd2ord y m d =? n).

(** A reader whose line holds [buf] and whose station stays silent. *)
Definition reader_on (buf : bytes) : SIReader :=
  mkSIReader (mkSerial buf [] (fun _ => [])) None None 0 true false None.

(** A reader in extended protocol with autosend, in control mode, whose
    line holds [buf] and whose station is [p]. *)
Definition ext_reader (buf : bytes) (p : bytes -> bytes) : SIReader :=
  mkSIReader (mkSerial buf [] p)
             (Some (mkProtoConfig (Some true) (Some true) (Some false)
                                  (Some false) (Some false) (Some 2)))
             None 0 true false None.

Ltac zdiv := Z.to_euclidean_division_equations; lia.

(** * Properties *)

(** ** Bytes and big-endian integers *)

Lemma byte2int_range (b : byte) : 0 <= byte2int b < 256.
Proof.
  unfold byte2int. pose proof (Byte.to_N_bounded b) as H. lia.
Qed.

Lemma bytes_eqb_refl (a : bytes) : bytes_eqb a a = true.
Proof. unfold bytes_eqb. destruct (list_eq_dec _ a a); congruence. Qed.

Lemma bytes_eqb_eq (a b : bytes) : bytes_eqb a b = true <-> a = b.
Proof.
  unfold bytes_eqb. destruct (list_eq_dec _ a b); split; congruence.
Qed.

(** Little-endian value of a byte list: what [_to_int_loop] accumulates. *)
Fixpoint le_value (rs : bytes) : Z :=
  match rs with
  | [] => 0
  | c :: rs' => byte2int c + 256 * le_value rs'
  end.

Lemma _to_int_loop_value (rs : bytes) :
  forall offset value, 0 <= offset ->
    _to_int_loop offset rs value = value + 2 ^ (8 * offset) * le_value rs.
Proof.
  induction rs as [|c rs IH]; intros offset value Hoff; cbn [_to_int_loop le_value].
  - lia.
  - rewrite IH by lia. rewrite Z.shiftl_mul_pow2 by lia.
    replace (8 * (offset + 1)) with (8 * offset + 8) by lia.
    rewrite Z.pow_add_r by lia. change (2 ^ 8) with 256.
    replace (offset * 8) with (8 * offset) by lia. ring.
Qed.

Lemma _to_int_value (s : bytes) : _to_int s = le_value (rev s).
Proof.
  unfold _to_int. rewrite _to_int_loop_value by lia.
  change (2 ^ (8 * 0)) with 1. lia.
Qed.

Lemma le_value_app (a b : bytes) :
  le_value (a ++ b) = le_value a + 256 ^ Z.of_nat (List.length a) * le_value b.
Proof.
  induction a as [|c a IH]; cbn [app le_value List.length].
  - change (256 ^ Z.of_nat 0) with 1. lia.
  - rewrite IH, Nat2Z.inj_succ, Z.pow_succ_r by lia. ring.
Qed.

Lemma le_value_range (rs : bytes) :
  0 <= le_value rs < 256 ^ Z.of_nat (List.length rs).
Proof.
  induction rs as [|c rs IH]; cbn [le_value List.length].
  - change (256 ^ Z.of_nat 0) with 1. lia.
  - rewrite Nat2Z.inj_succ, Z.pow_succ_r by lia.
    pose proof (byte2int_range c). lia.
Qed.

Lemma _to_int_nil : _to_int [] = 0.
Proof. reflexivity. Qed.

Lemma _to_int_snoc (s : bytes) (c : byte) :
  _to_int (s ++ [c]) = 256 * _to_int s + byte2int c.
Proof.
  rewrite !_to_int_value, rev_app_distr. cbn [rev app le_value]. lia.
Qed.

Lemma _to_int_range (s : bytes) :
  0 <= _to_int s < 256 ^ Z.of_nat (List.length s).
Proof.
  rewrite _to_int_value, <- length_rev. apply le_value_range.
Qed.


Lemma _to_int_2 (a b : byte) : _to_int [a; b] = byte2int a * 256 + byte2int b.
Proof. rewrite _to_int_value. cbn [rev app le_value]. lia. Qed.

Lemma _to_int_3 (a b c : byte) :
  _to_int [a; b; c] = byte2int a * 65536 + byte2int b * 256 + byte2int c.
Proof. rewrite _to_int_value. cbn [rev app le_value]. lia. Qed.

(** ** Card numbers *)

Lemma _decode_cardnr_cases (b0 b1 b2 b3 : byte) :
  _decode_cardnr [b0; b1; b2; b3] =
    if negb (bytes_eqb [b0] [x00]) then
      Raise (SIReaderException "Unknown card series")
    else if _to_int [b1; b2; b3] <? 500000 then
      if byte2int b1 <? 2 then Ok (_to_int [b2; b3])
      else Ok (byte2int b1 * 100000 + _to_int [b2; b3])
    else Ok (_to_int [b1; b2; b3]).
Proof. reflexivity. Qed.

(** C3 (as amended): the case analysis of [_decode_cardnr] on every
    4-byte input, and the separation of the SI5 and SI6 results at 500000
    for the series bytes 0..4 that SI-Card 5 uses. *)
Theorem decode_cardnr_spec (b0 b1 b2 b3 : byte) :
  let nr := _to_int [b1; b2; b3] in
  let low2 := _to_int [b2; b3] in
  let series := byte2int b1 in
  (b0 <> x00 ->
   _decode_cardnr [b0; b1; b2; b3]
   = Raise (SIReaderException "Unknown card series"))
  /\ (b0 = x00 -> nr < 500000 -> series < 2 ->
      _decode_cardnr [b0; b1; b2; b3] = Ok low2)
  /\ (b0 = x00 -> nr < 500000 -> 2 <= series ->
      _decode_cardnr [b0; b1; b2; b3] = Ok (series * 100000 + low2))
  /\ (b0 = x00 -> 500000 <= nr ->
      _decode_cardnr [b0; b1; b2; b3] = Ok nr)
  /\ (b0 = x00 -> series <= 4 ->
      exists r, _decode_cardnr [b0; b1; b2; b3] = Ok r /\ r <= 465535
                /\ nr < 500000).
Proof.
  intros nr low2 series. rewrite _decode_cardnr_cases.
  fold nr low2 series.
  assert (Hnr : nr = series * 65536 + low2).
  { unfold nr, low2, series. rewrite _to_int_3, _to_int_2. lia. }
  assert (Hlow : 0 <= low2 < 65536).
  { unfold low2. rewrite _to_int_2.
    pose proof (byte2int_range b2). pose proof (byte2int_range b3). lia. }
  pose proof (byte2int_range b1) as Hs. fold series in Hs.
  repeat split.
  - intros Hb. destruct (bytes_eqb [b0] [x00]) eqn:E; [|reflexivity].
    apply bytes_eqb_eq in E. congruence.
  - intros -> H1 H2. rewrite bytes_eqb_refl. simpl.
    destruct (Z.ltb_spec nr 500000); [|lia].
    destruct (Z.ltb_spec series 2); [reflexivity|lia].
  - intros -> H1 H2. rewrite bytes_eqb_refl. simpl.
    destruct (Z.ltb_spec nr 500000); [|lia].
    destruct (Z.ltb_spec series 2); [lia|reflexivity].
  - intros -> H1. rewrite bytes_eqb_refl. simpl.
    destruct (Z.ltb_spec nr 500000); [lia|reflexivity].
  - intros -> H1. rewrite bytes_eqb_refl. simpl.
    destruct (Z.ltb_spec nr 500000); [|lia].
    destruct (Z.ltb_spec series 2); eexists; (split; [reflexivity|lia]).
Qed.

(** C3, witness: the SI5 card of scenario S3 and an SI6 card. *)
Lemma decode_cardnr_spec_witness :
  _decode_cardnr [x00; x01; x20; x5b] = Ok 8283
  /\ _decode_cardnr [x00; x07; xa1; x20] = Ok 500000.
Proof.
  split.
  - destruct (decode_cardnr_spec x00 x01 x20 x5b) as (_ & H & _).
    apply H; [reflexivity | vm_compute; reflexivity | vm_compute; reflexivity].
  - destruct (decode_cardnr_spec x00 x07 xa1 x20) as (_ & _ & _ & H & _).
    apply H; [reflexivity | vm_compute; discriminate].
Defined.

(** C3, counterexample: series byte 5 takes the SI5 rule and decodes to
    500000, the same number as the SI6 card 07 A1 20. *)
Lemma decode_cardnr_ranges_overlap : ~ si5_si6_disjoint.
Proof.
  intros H.
  specialize (H x05 x00 x00 x07 xa1 x20 500000 500000).
  assert (500000 < 500000) as Habs; [|lia].
  apply H; vm_compute; congruence.
Qed.

(** ** CRC *)

(** C4: the CRC of the empty string is 00 00 and [_crc_check] accepts the
    CRC that [_crc] computes; a single byte, however, is returned as the
    low byte of the CRC (here 00 53), because the guard is [len(s) < 1]. *)
Theorem crc_short_and_roundtrip :
  _crc [] = Ok [x00; x00]
  /\ (forall payload c, _crc payload = Ok c -> _crc_check payload c = true)
  /\ (forall payload, exists c, _crc payload = Ok c)
  /\ _crc [x53] = Ok [x00; x53]
  /\ (forall b, _crc [b] = Ok [x00; b]).
Proof.
  split; [reflexivity|]. split.
  { intros payload c H. unfold _crc_check. rewrite H. apply bytes_eqb_refl. }
  split.
  { intros payload. unfold _crc.
    destruct (List.length payload <? 1)%nat; [eexists; reflexivity|].
    set (crc := Z.land _ 65535).
    assert (Hc : 0 <= crc < 65536).
    { unfold crc. change 65535 with (Z.ones 16). rewrite Z.land_ones by lia.
      apply Z.mod_pos_bound. lia. }
    assert (H1 : exists b, int2byte (Z.shiftr crc 8) = Ok [b]).
    { unfold int2byte. rewrite Z.shiftr_div_pow2 by lia. change (2 ^ 8) with 256.
      assert (0 <= crc / 256 < 256) as Hr
        by (split; [apply Z.div_pos; lia | apply Z.div_lt_upper_bound; lia]).
      destruct (Z.leb_spec 0 (crc / 256)); [|lia].
      destruct (Z.ltb_spec (crc / 256) 256); [|lia]. simpl.
      destruct (Byte.of_N (Z.to_N (crc / 256))) eqn:E; [eexists; reflexivity|].
      apply Byte.of_N_None_iff in E. lia. }
    assert (H2 : exists b, int2byte (Z.land crc 255) = Ok [b]).
    { unfold int2byte. change 255 with (Z.ones 8). rewrite Z.land_ones by lia.
      pose proof (Z.mod_pos_bound crc (2 ^ 8) ltac:(lia)) as Hr.
      change (2 ^ 8) with 256 in *.
      destruct (Z.leb_spec 0 (crc mod 256)); [|lia].
      destruct (Z.ltb_spec (crc mod 256) 256); [|lia]. simpl.
      destruct (Byte.of_N (Z.to_N (crc mod 256))) eqn:E; [eexists; reflexivity|].
      apply Byte.of_N_None_iff in E. lia. }
    destruct H1 as [h ->], H2 as [l ->]. simpl. eexists; reflexivity. }
  split; [reflexivity|].
  intros b. destruct b; reflexivity.
Qed.

(** ** Datetime arithmetic *)

Lemma add_inv (t t' : datetime) (d : timedelta) :
  add t d = Ok t' ->
  toordinal t' = (instant t + d) / US_PER_DAY
  /\ dayus t' = (instant t + d) mod US_PER_DAY
  /\ 1 <= toordinal t' <= _MAXORDINAL.
Proof.
  unfold add.
  destruct (Z.ltb_spec 0 ((instant t + d) / US_PER_DAY));
    destruct (Z.leb_spec ((instant t + d) / US_PER_DAY) _MAXORDINAL);
    cbn [andb]; intros Heq; inversion Heq; subst; cbn [toordinal dayus]; lia.
Qed.


Lemma add_valid (t t' : datetime) (d : timedelta) :
  add t d = Ok t' -> valid t'.
Proof.
  intros H. apply add_inv in H. destruct H as (H1 & H2 & H3).
  split; [exact H3|]. rewrite H2. apply Z.mod_pos_bound. reflexivity.
Qed.


(** Adding to a midnight a duration shorter than a day stays on that day. *)
Lemma add_midnight_inv (t r : datetime) (d : timedelta) :
  0 <= d < US_PER_DAY ->
  add (midnight t) d = Ok r ->
  toordinal r = toordinal t /\ dayus r = d.
Proof.
  intros Hd H. apply add_inv in H. destruct H as (H1 & H2 & _).
  unfold instant, midnight in *. cbn [toordinal dayus] in *.
  rewrite H1, H2. unfold US_PER_DAY in *. zdiv.
Qed.

(** Moving a valid datetime by whole days keeps its time of day. *)
Lemma sub_days_inv (t r : datetime) (k : Z) :
  0 <= dayus t < US_PER_DAY ->
  sub t (mktd k 0 0 0 0) = Ok r ->
  toordinal r = toordinal t - k /\ dayus r = dayus t.
Proof.
  intros Hd H. apply add_inv in H. destruct H as (H1 & H2 & _).
  unfold instant, mktd in *. rewrite H1, H2. unfold US_PER_DAY in *. zdiv.
Qed.

(** [timedelta(hours=t.hour, minutes=t.minute, seconds=t.second)] is the
    time of day cut to whole seconds. *)
Lemma hms_floor (t : datetime) :
  0 <= dayus t < US_PER_DAY ->
  mktd 0 (hour t) (minute t) (second t) 0 = dayus t / 1000000 * 1000000.
Proof.
  intros H. unfold mktd, hour, minute, second, US_PER_DAY in *. zdiv.
Qed.

Lemma ptd_weekday_range (ptd : byte) : 0 <= ptd_weekday ptd < 7.
Proof. unfold ptd_weekday. apply Z.mod_pos_bound. lia. Qed.

(** ** Time reconstruction *)

Section DecodeTime.
Variables (now ref : datetime) (hi lo : byte).
Hypothesis Href : valid ref.
Hypothesis Hraw : _to_int [hi; lo] < 43200.

Lemma raw_not_reset : bytes_eqb [hi; lo] TIME_RESET = false.
Proof.
  destruct (bytes_eqb [hi; lo] TIME_RESET) eqn:E; [|reflexivity].
  apply bytes_eqb_eq in E. rewrite E in Hraw. vm_compute in Hraw. discriminate.
Qed.

Lemma punchtime_range :
  0 <= mktd 0 0 0 (_to_int [hi; lo]) 0 < twelve_hours.
Proof.
  pose proof (_to_int_range [hi; lo]) as H.
  unfold twelve_hours, mktd, US_PER_DAY. lia.
Qed.



End DecodeTime.





(** ** The response parser *)

Ltac unfold_method :=
  cbn [bind ret raise lift gets modify serial_read serial_flushInput
       serial_write serial_inWaiting set_serial set_station_code
       _serial in_buffer written peer _station_code fst snd];
  change (Z.to_nat 1) with 1%nat; change (Z.to_nat 2) with 2%nat;
  cbn [firstn skipn].

Lemma read_command_station_code (r : SIReader) (rest : bytes) :
  in_buffer (_serial r) = STX :: rest ->
  _station_code (snd (_read_command r))
  = Some (_to_int (firstn 2 (skipn 2 rest))).
Proof.
  intros Hbuf. destruct r as [[buf w p] pc sc sn d nc no].
  cbn [_serial in_buffer] in Hbuf. subst buf.
  unfold _read_command. unfold_method.
  change (Z.to_nat 1) with 1%nat. change (Z.to_nat 2) with 2%nat.
  cbn [firstn skipn].
  change (bytes_eqb [STX] [WAKEUP]) with false.
  unfold_method.
  change (bytes_eqb [STX] []) with false.
  change (bytes_eqb [STX] [NAK]) with false.
  change (bytes_eqb [STX] [STX]) with true.
  cbn [negb]. unfold_method.
  destruct rest as [|c [|l rest]]; try reflexivity.
  change (Z.to_nat 1) with 1%nat. change (Z.to_nat 2) with 2%nat.
  cbn [firstn skipn byte2int_of index nth_error].
  unfold_method.
  destruct (negb (bytes_eqb _ [ETX])); [reflexivity|].
  destruct (negb (_crc_check _ _)); reflexivity.
Qed.

(** C9: once the start byte STX has been read, [_read_command] stores the
    big-endian value of the two station bytes in [_station_code], whatever
    the outcome of the call; the update is there after a call that failed
    on the ETX byte and after one that failed on the CRC. *)
Theorem read_command_updates_station_code :
  (forall (r : SIReader) (cmd len s1 s2 : byte) (rest : bytes),
     in_buffer (_serial r) = STX :: cmd :: len :: s1 :: s2 :: rest ->
     _station_code (snd (_read_command r))
     = Some (byte2int s1 * 256 + byte2int s2))
  /\ (forall (r : SIReader) (rest : bytes),
        in_buffer (_serial r) = STX :: rest ->
        _station_code (snd (_read_command r))
        = Some (_to_int (firstn 2 (skipn 2 rest))))
  /\ (forall r : SIReader,
        in_buffer (_serial r)
        = [STX; xf0; x03; x00; x2a; x4d; x0d; xeb; x04] ->
        fst (_read_command r)
        = Raise (SIReaderException "No ETX byte received.")
        /\ _station_code (snd (_read_command r)) = Some 42)
  /\ (forall r : SIReader,
        in_buffer (_serial r)
        = [STX; xf0; x03; x00; x2a; x4d; xa1; xc2; x03] ->
        fst (_read_command r) = Raise (SIReaderException "CRC check failed")
        /\ _station_code (snd (_read_command r)) = Some 42).
Proof.
  split; [|split; [|split]].
  - intros r cmd len s1 s2 rest H.
    rewrite (read_command_station_code r _ H).
    cbn [firstn skipn]. rewrite _to_int_2. reflexivity.
  - exact read_command_station_code.
  - intros r H. split; [|rewrite (read_command_station_code r _ H); reflexivity].
    destruct r as [[buf w p] pc sc sn d nc no].
    cbn [_serial in_buffer] in H. subst buf. reflexivity.
  - intros r H. split; [|rewrite (read_command_station_code r _ H); reflexivity].
    destruct r as [[buf w p] pc sc sn d nc no].
    cbn [_serial in_buffer] in H. subst buf. reflexivity.
Qed.

(** C9, witness: the reply of scenario S2, whose CRC bytes A1 C2 do not
    match the payload, still sets the station code to 0x002A. *)
Lemma read_command_updates_station_code_witness :
  let r := mkSIReader
             (mkSerial [STX; xf0; x03; x00; x2a; x4d; xa1; xc2; x03] []
                       (fun _ => []))
             None None 0 true false None in
  fst (_read_command r) = Raise (SIReaderException "CRC check failed")
  /\ _station_code (snd (_read_command r)) = Some 42.
Proof.
  intros r.
  destruct read_command_updates_station_code as (_ & _ & _ & H).
  apply H. reflexivity.
Defined.

Lemma firstn_app_exact {A} (n : nat) (l r : list A) :
  List.length l = n -> firstn n (l ++ r) = l.
Proof.
  intros <-. rewrite firstn_app, Nat.sub_diag, firstn_all. cbn [firstn].
  apply app_nil_r.
Qed.

Lemma skipn_app_exact {A} (n : nat) (l r : list A) :
  List.length l = n -> skipn n (l ++ r) = r.
Proof.
  intros <-. rewrite skipn_app, Nat.sub_diag, skipn_all. reflexivity.
Qed.

Lemma int2byte_inv (i : Z) (bs : bytes) :
  int2byte i = Ok bs -> exists b, bs = [b] /\ byte2int b = i.
Proof.
  unfold int2byte.
  destruct (Z.leb_spec 0 i); [|discriminate].
  destruct (Z.ltb_spec i 256); [|discriminate]. cbn [andb].
  destruct (Byte.of_N (Z.to_N i)) as [b|] eqn:E; [|discriminate].
  intros [= <-]. exists b. split; [reflexivity|].
  apply Byte.to_of_N in E. unfold byte2int. rewrite E. lia.
Qed.

Lemma int2byte_total (i : Z) :
  0 <= i < 256 -> exists b, int2byte i = Ok [b] /\ byte2int b = i.
Proof.
  intros H. unfold int2byte.
  destruct (Z.leb_spec 0 i); [|lia].
  destruct (Z.ltb_spec i 256); [|lia]. cbn [andb].
  destruct (Byte.of_N (Z.to_N i)) as [b|] eqn:E.
  - exists b. split; [reflexivity|].
    apply Byte.to_of_N in E. unfold byte2int. rewrite E. lia.
  - apply Byte.of_N_None_iff in E. lia.
Qed.

Lemma crc_total (s : bytes) : exists h l, _crc s = Ok [h; l].
Proof.
  unfold _crc.
  destruct (List.length s <? 1)%nat; [eexists; eexists; reflexivity|].
  set (crc := Z.land _ 65535).
  assert (Hc : 0 <= crc < 65536).
  { unfold crc. change 65535 with (Z.ones 16). rewrite Z.land_ones by lia.
    apply Z.mod_pos_bound. lia. }
  destruct (int2byte_total (Z.shiftr crc 8)) as (h & -> & _).
  { rewrite Z.shiftr_div_pow2 by lia. change (2 ^ 8) with 256. zdiv. }
  destruct (int2byte_total (Z.land crc 255)) as (l & -> & _).
  { change 255 with (Z.ones 8). rewrite Z.land_ones by lia.
    change (2 ^ 8) with 256. zdiv. }
  exists h, l. reflexivity.
Qed.

(** A well-formed response frame is parsed into its command and data, the
    station bytes go to [_station_code], and what follows the frame stays
    on the line. *)
Lemma read_command_frame (w : list bytes) (p : bytes -> bytes)
    (pc : option ProtoConfig) (sc : option Z) (sn : Z) (d nc : bool)
    (no : option Z) (cmd len s1 s2 : byte) (data crc rest : bytes) :
  Z.of_nat (List.length data) = byte2int len - 2 ->
  _crc ([cmd; len; s1; s2] ++ data) = Ok crc ->
  _read_command
    (mkSIReader
       (mkSerial (STX :: cmd :: len :: s1 :: s2 :: data ++ crc ++ ETX :: rest)
                 w p) pc sc sn d nc no)
  = (Ok ([cmd], data),
     mkSIReader (mkSerial rest w p) pc (Some (_to_int [s1; s2])) sn d nc no).
Proof.
  intros Hlen Hcrc.
  destruct (crc_total ([cmd; len; s1; s2] ++ data)) as (h & l & Hhl).
  rewrite Hhl in Hcrc. injection Hcrc as <-.
  unfold _read_command. unfold_method.
  change (Z.to_nat 1) with 1%nat. change (Z.to_nat 2) with 2%nat.
  cbn [firstn skipn].
  change (bytes_eqb [STX] [WAKEUP]) with false.
  unfold_method.
  change (bytes_eqb [STX] []) with false.
  change (bytes_eqb [STX] [NAK]) with false.
  change (bytes_eqb [STX] [STX]) with true.
  cbn [negb]. unfold_method.
  cbn [firstn skipn byte2int_of index nth_error].
  unfold_method.
  rewrite !firstn_app_exact, !skipn_app_exact by lia.
  cbn [app firstn skipn].
  change (bytes_eqb [ETX] [ETX]) with true. cbn [negb].
  unfold _crc_check. cbn [app] in Hhl. cbn [app]. rewrite Hhl.
  rewrite bytes_eqb_refl. cbn [negb]. reflexivity.
Qed.




(** ** Backup records *)

(** C1 (as amended): the record 01 00 2A 5C C3 1C 20 80 of scenario S6
    (the CN bytes preceded by 0x00 are the nine bytes of the scenario) is
    decoded to 2023-03-01 14:00:00.500000 with an empty error tag, and its
    card number is [_decode_cardnr] of 00 01 00 2A, which is 42: the SI5
    rule applies to 0x01002A = 65578 < 500000. *)
Theorem read_backup_extended_record :
  exists t,
    Datetime.new 2023 3 1 14 0 0 500000 = Ok t
    /\ _decode_cardnr ([x00] ++ [x01; x00; x2a]) = Ok 42
    /\ _to_int [x01; x00; x2a] = 65578
    /\ decode_bux_punch [x01; x00; x2a; x5c; xc3; x1c; x20; x80]
       = Ok (t, 42, EmptyString)
    /\ fst (read_backup_decode 8 t 0 [x01; x00; x2a; x5c; xc3; x1c; x20; x80]
              [] (ext_reader [] (fun _ => [])))
       = Ok [(t, 42, EmptyString)].
Proof.
  exists (mkdt 738580 50400500000).
  repeat split; vm_compute; reflexivity.
Qed.

(** C1, counterexample: the card number of the record is not 65578,
    whether the nine bytes are read as 0x00 followed by the record or as
    backup memory starting with the byte 0x00 (then the first record is
    00 01 00 2A 5C C3 1C 20, card 256 on 2010-09-14, and the remaining
    byte 80 raises IndexError). *)
Lemma read_backup_extended_record_not_65578 :
  (forall t e,
     decode_bux_punch [x01; x00; x2a; x5c; xc3; x1c; x20; x80]
     <> Ok (t, 65578, e))
  /\ (forall t e,
        decode_bux_punch [x00; x01; x00; x2a; x5c; xc3; x1c; x20]
        <> Ok (t, 65578, e))
  /\ (forall now,
        fst (read_backup_decode 9 now 0
               [x00; x01; x00; x2a; x5c; xc3; x1c; x20; x80] []
               (ext_reader [] (fun _ => [])))
        = Raise IndexError).
Proof.
  split; [|split].
  - intros t e. vm_compute. intros H. inversion H.
  - intros t e. vm_compute. intros H. inversion H.
  - intros now. vm_compute. reflexivity.
Qed.

(** C5: the weekday expression of the legacy branch of [read_backup]
    shifts by [1 - 1 = 0] bits, so it is [(ptd & 0x0E) mod 7]; for PTD
    0x02 (Monday) it gives 2 where [_decode_time] gives 0, and the two
    agree only on Saturdays.  The statement before it, which concatenates
    a [str] with [bytes], raises TypeError for every record. *)
Theorem legacy_weekday_differs :
  bul_weekday (byte2int x02) = 2
  /\ ptd_weekday x02 = 0
  /\ (forall ptd : byte,
        bul_weekday (byte2int ptd) = Z.land (byte2int ptd) 14 mod 7)
  /\ (forall ptd : byte,
        bul_weekday (byte2int ptd) = ptd_weekday ptd
        <-> Z.shiftr (Z.land (byte2int ptd) 14) 1 = 6)
  /\ (forall now punch, decode_bul_punch now punch = Raise TypeError).
Proof.
  split; [reflexivity|]. split; [reflexivity|]. split; [|split].
  - intros ptd. unfold bul_weekday. change (1 - 1) with 0.
    rewrite Z.shiftr_0_r. reflexivity.
  - intros ptd. destruct ptd; vm_compute; split; congruence.
  - intros now punch. reflexivity.
Qed.

(** ** The autosend poller *)

(** C6: a reply with command 0x83 (not C_TRANS_REC) is not rejected: its
    data is decoded as a punch and returned when the next read times out. *)
Theorem poll_punch_accepts_other_command :
  exists now t,
    Datetime.new 2024 5 14 10 0 0 0 = Ok now
    /\ Datetime.new 2024 5 14 2 0 0 0 = Ok t
    /\ _crc_check [x83; x09; x00; x2a; x00; x01; x20; x5b; x05; x1c; x20]
                  [x8d; xbf] = true
    /\ fst (poll_punch 2 now
              (ext_reader [STX; x83; x09; x00; x2a;
                           x00; x01; x20; x5b; x05; x1c; x20;
                           x8d; xbf; ETX] (fun _ => [])))
       = Ok (Some [(8283, Some t)]).
Proof.
  exists (mkdt 739020 36000000000), (mkdt 739020 7200000000).
  repeat split; vm_compute; reflexivity.
Qed.

(** ** Station time: [set_time] read back by [get_time] *)

Lemma range_all_spec (P : Z -> bool) (n : nat) :
  forall start, range_all P n start = true ->
    forall k, start <= k < start + Z.of_nat n -> P k = true.
Proof.
  induction n as [|n IH]; intros start H k Hk.
  - lia.
  - cbn [range_all] in H. destruct (P start) eqn:E; [|discriminate].
    destruct (Z.eq_dec k start) as [->|Hne]; [exact E|].
    apply (IH (start + 1) H). lia.
Qed.

Lemma get_time_ms_all : range_all get_time_ms_ok 256 0 = true.
Proof. vm_cast_no_check (eq_refl true). Qed.

Lemma ordinal_ok_century :
  range_all ordinal_ok (Z.to_nat 36525) 730120 = true.
Proof. vm_cast_no_check (eq_refl true). Qed.

(** On a byte the binary64 computation of [get_time] is the exact rounding
    of [b * 10^6 / 256]. *)
Lemma get_time_ms_exact (b : Z) :
  0 <= b < 256 ->
  py_round (PrimFloat.mul (PrimFloat.div (float_of_int b) 256) 1000000)
  = Ok (round_half_even (b * 1000000) 256).
Proof.
  intros H. pose proof (range_all_spec _ _ _ get_time_ms_all b) as Hk.
  unfold get_time_ms_ok in Hk.
  destruct (py_round _) as [f|]; [|(discriminate Hk; lia)].
  f_equal. apply Z.eqb_eq. apply Hk. lia.
Qed.

Lemma byte_of_Z (v : Z) :
  0 <= v < 256 -> exists b, Byte.of_N (Z.to_N v) = Some b /\ byte2int b = v.
Proof.
  intros H. destruct (Byte.of_N (Z.to_N v)) as [b|] eqn:E.
  - exists b. split; [reflexivity|].
    apply Byte.to_of_N in E. unfold byte2int. rewrite E. lia.
  - apply Byte.of_N_None_iff in E. lia.
Qed.

Lemma _to_str_1 (v : Z) :
  0 <= v < 256 -> exists b, _to_str v 1 = Ok [b] /\ byte2int b = v.
Proof.
  intros H. unfold _to_str. change (2 ^ (8 * Z.of_nat 1)) with 256.
  destruct (Z.leb_spec 0 v); [|lia]. destruct (Z.ltb_spec v 256); [|lia].
  cbn [andb be_bytes]. change (Z.of_nat 0 * 8) with 0.
  rewrite Z.shiftr_0_r. change 255 with (Z.ones 8).
  rewrite Z.land_ones, Z.mod_small by (change (2 ^ 8) with 256; lia).
  destruct (byte_of_Z v H) as (b & -> & Hb). exists b. auto.
Qed.

Lemma _to_str_2 (v : Z) :
  0 <= v < 65536 ->
  exists b1 b0, _to_str v 2 = Ok [b1; b0] /\ _to_int [b1; b0] = v.
Proof.
  intros H. unfold _to_str. change (2 ^ (8 * Z.of_nat 2)) with 65536.
  destruct (Z.leb_spec 0 v); [|lia]. destruct (Z.ltb_spec v 65536); [|lia].
  cbn [andb be_bytes]. change (Z.of_nat 0 * 8) with 0.
  change (Z.of_nat 1 * 8) with 8.
  rewrite Z.shiftr_0_r. change 255 with (Z.ones 8).
  rewrite !Z.land_ones, Z.shiftr_div_pow2 by lia. change (2 ^ 8) with 256.
  destruct (byte_of_Z ((v / 256) mod 256)) as (b1 & -> & Hb1); [zdiv|].
  destruct (byte_of_Z (v mod 256)) as (b0 & -> & Hb0); [zdiv|].
  exists b1, b0. split; [reflexivity|]. rewrite _to_int_2, Hb1, Hb0. zdiv.
Qed.

Lemma year_in_century (n : Z) :
  1 <= n <= _MAXORDINAL ->
  2000 <= fst (fst (_ord2ymd n)) <= 2099 ->
  730120 <= n <= 766644.
Proof.
  intros Hn Hy.
  assert (H1 : n < 730120 -> fst (fst (_ord2ymd n)) <= 1999).
  { intros H. unfold _ord2ymd, _DI400Y, _DI100Y, _DI4Y.
    repeat match goal with
           | |- context [if ?c then _ else _] => destruct c eqn:?
           end; cbn [fst snd]; zdiv. }
  assert (H2 : 766644 < n -> 2100 <= fst (fst (_ord2ymd n))).
  { intros H. unfold _MAXORDINAL in Hn. unfold _ord2ymd, _DI400Y, _DI100Y, _DI4Y.
    repeat match goal with
           | |- context [if ?c then _ else _] => destruct c eqn:?
           end; cbn [fst snd];
    repeat match goal with
           | H : (_ || _) = true |- _ => apply orb_true_iff in H
           | H : (_ || _) = false |- _ => apply orb_false_iff in H; destruct H
           | H : (_ =? _) = true |- _ => apply Z.eqb_eq in H
           | H : (_ =? _) = false |- _ => apply Z.eqb_neq in H
           end; zdiv. }
  lia.
Qed.

Lemma round_half_even_bounds (num den : Z) :
  0 < den -> 0 <= num ->
  0 <= round_half_even num den <= num / den + 1.
Proof.
  intros Hd Hn. unfold round_half_even.
  assert (0 <= num / den) by (apply Z.div_pos; lia).
  destruct (2 * (num mod den) <? den); [lia|].
  destruct (den <? 2 * (num mod den)); [lia|].
  destruct (Z.even (num / den)); lia.
Qed.

(** ** Big-endian conversions: [_to_int] and [_to_str] *)

Lemma _to_int_cons (c : byte) (s : bytes) :
  _to_int (c :: s) = byte2int c * 256 ^ Z.of_nat (List.length s) + _to_int s.
Proof.
  rewrite !_to_int_value. cbn [rev]. rewrite le_value_app, length_rev.
  cbn [le_value]. lia.
Qed.

Lemma be_bytes_digit (len : nat) (i : Z) :
  0 <= i ->
  exists b, be_bytes (S len) i = b :: be_bytes len i
            /\ byte2int b = i / 256 ^ Z.of_nat len mod 256.
Proof.
  intros Hi. cbn [be_bytes].
  change 255 with (Z.ones 8). rewrite Z.land_ones by lia.
  rewrite Z.shiftr_div_pow2 by lia.
  replace (2 ^ (Z.of_nat len * 8)) with (256 ^ Z.of_nat len)
    by (rewrite Z.mul_comm, Z.pow_mul_r by lia; reflexivity).
  change (2 ^ 8) with 256.
  destruct (byte_of_Z (i / 256 ^ Z.of_nat len mod 256)) as (b & -> & Hb).
  { apply Z.mod_pos_bound. lia. }
  exists b. auto.
Qed.

Lemma be_bytes_length (len : nat) (i : Z) :
  0 <= i -> List.length (be_bytes len i) = len.
Proof.
  intros Hi. induction len as [|len IH]; [reflexivity|].
  destruct (be_bytes_digit len i Hi) as (b & -> & _).
  cbn [List.length]. rewrite IH. reflexivity.
Qed.

Lemma be_bytes_value (len : nat) (i : Z) :
  0 <= i -> _to_int (be_bytes len i) = i mod 256 ^ Z.of_nat len.
Proof.
  intros Hi. induction len as [|len IH].
  - cbn [be_bytes]. rewrite _to_int_nil. change (256 ^ Z.of_nat 0) with 1.
    rewrite Z.mod_1_r. reflexivity.
  - destruct (be_bytes_digit len i Hi) as (b & -> & Hb).
    rewrite _to_int_cons, IH, Hb, be_bytes_length by exact Hi.
    rewrite Nat2Z.inj_succ, Z.pow_succ_r by lia.
    assert (0 < 256 ^ Z.of_nat len) by (apply Z.pow_pos_nonneg; lia).
    rewrite (Z.mul_comm 256), Z.rem_mul_r by lia. lia.
Qed.

Lemma be_bytes_mod (len : nat) (i j : Z) :
  0 <= i -> 0 <= j ->
  i mod 256 ^ Z.of_nat len = j mod 256 ^ Z.of_nat len ->
  be_bytes len i = be_bytes len j.
Proof.
  intros Hi Hj. induction len as [|len IH]; intros Hmod; [reflexivity|].
  assert (Hp : 0 < 256 ^ Z.of_nat len) by (apply Z.pow_pos_nonneg; lia).
  rewrite Nat2Z.inj_succ, Z.pow_succ_r, (Z.mul_comm 256) in Hmod by lia.
  rewrite !Z.rem_mul_r in Hmod by lia.
  pose proof (Z.mod_pos_bound i (256 ^ Z.of_nat len) Hp).
  pose proof (Z.mod_pos_bound j (256 ^ Z.of_nat len) Hp).
  pose proof (Z.mod_pos_bound (i / 256 ^ Z.of_nat len) 256 ltac:(lia)).
  pose proof (Z.mod_pos_bound (j / 256 ^ Z.of_nat len) 256 ltac:(lia)).
  destruct (Z.div_mod_unique (256 ^ Z.of_nat len)
              (i / 256 ^ Z.of_nat len mod 256) (j / 256 ^ Z.of_nat len mod 256)
              (i mod 256 ^ Z.of_nat len) (j mod 256 ^ Z.of_nat len))
    as [Hhigh Hlow]; [lia|lia|lia|].
  destruct (be_bytes_digit len i Hi) as (b & -> & Hb).
  destruct (be_bytes_digit len j Hj) as (c & -> & Hc).
  rewrite (IH Hlow). f_equal.
  assert (Hbc : byte2int b = byte2int c) by congruence.
  unfold byte2int in Hbc. apply N2Z.inj in Hbc.
  pose proof (Byte.of_to_N b) as Eb. pose proof (Byte.of_to_N c) as Ec.
  rewrite Hbc in Eb. congruence.
Qed.

(** X1: [_to_str] and [_to_int] are inverse to each other.  For
    [0 <= i < 256^len], [_to_str(i, len)] is a string of [len] bytes whose
    [_to_int] is [i]; and every byte string [s] is [_to_str] of its
    [_to_int] on [len(s)] bytes. *)
Theorem to_str_to_int_roundtrip :
  (forall (i : Z) (len : nat),
     0 <= i < 256 ^ Z.of_nat len ->
     exists s, _to_str i len = Ok s /\ List.length s = len /\ _to_int s = i)
  /\ (forall s : bytes, _to_str (_to_int s) (List.length s) = Ok s).
Proof.
  assert (Hpow : forall len, 2 ^ (8 * Z.of_nat len) = 256 ^ Z.of_nat len).
  { intros len. rewrite Z.pow_mul_r by lia. reflexivity. }
  split.
  - intros i len Hi. unfold _to_str. rewrite Hpow.
    destruct (Z.leb_spec 0 i); [|lia].
    destruct (Z.ltb_spec i (256 ^ Z.of_nat len)); [|lia]. cbn [andb].
    eexists. split; [reflexivity|]. split; [apply be_bytes_length; lia|].
    rewrite be_bytes_value, Z.mod_small; lia.
  - intros s. pose proof (_to_int_range s) as Hr.
    unfold _to_str. rewrite Hpow.
    destruct (Z.leb_spec 0 (_to_int s)); [|lia].
    destruct (Z.ltb_spec (_to_int s) (256 ^ Z.of_nat (List.length s))); [|lia].
    cbn [andb]. f_equal. clear.
    induction s as [|c s IH]; [reflexivity|].
    pose proof (_to_int_range (c :: s)) as Hr.
    pose proof (_to_int_range s) as Hs.
    pose proof (byte2int_range c) as Hc.
    cbn [List.length] in *.
    destruct (be_bytes_digit (List.length s) (_to_int (c :: s)) ltac:(lia))
      as (b & -> & Hb).
    assert (Hp : 0 < 256 ^ Z.of_nat (List.length s))
      by (apply Z.pow_pos_nonneg; lia).
    rewrite _to_int_cons in *.
    rewrite (be_bytes_mod _ _ (_to_int s)), IH; try lia.
    + f_equal.
      rewrite Z.div_add_l, Z.div_small, Z.add_0_r, Z.mod_small in Hb by lia.
      unfold byte2int in Hb. apply N2Z.inj in Hb.
      pose proof (Byte.of_to_N b) as Eb. pose proof (Byte.of_to_N c) as Ec.
      rewrite Hb in Eb. congruence.
    + rewrite Z.add_comm, Z.mod_add by lia. reflexivity.
Qed.

(** X1, witness: 7200 seconds on two bytes is 1C 20. *)
Lemma to_str_to_int_roundtrip_witness :
  exists s, _to_str 7200 2 = Ok s /\ List.length s = 2%nat /\ _to_int s = 7200.
Proof.
  destruct to_str_to_int_roundtrip as [H _].
  apply (H 7200 2%nat). vm_compute. split; [discriminate|reflexivity].
Defined.

(** X2: [_to_str] raises OverflowError exactly when the integer is negative
    or does not fit the requested number of bytes. *)
Theorem to_str_overflow (i : Z) (len : nat) :
  _to_str i len = Raise OverflowError
  <-> (i < 0 \/ 256 ^ Z.of_nat len <= i).
Proof.
  unfold _to_str. rewrite Z.pow_mul_r by lia. change (2 ^ 8) with 256.
  destruct (Z.leb_spec 0 i); destruct (Z.ltb_spec i (256 ^ Z.of_nat len));
    cbn [andb]; split; intros H'; try lia; try reflexivity; discriminate.
Qed.

(** ** More on the CRC *)

(** X3: [_crc] never raises and always returns exactly two bytes;
    [_crc_check(s, c)] holds exactly when [c] is that CRC, so a CRC field
    that is not two bytes long (cut short by a read timeout) is always
    rejected. *)
Theorem crc_two_bytes_and_check :
  (forall s : bytes, exists hi lo, _crc s = Ok [hi; lo])
  /\ (forall s c : bytes, _crc_check s c = true <-> _crc s = Ok c)
  /\ (forall s c : bytes, List.length c <> 2%nat -> _crc_check s c = false).
Proof.
  split; [exact crc_total|]. split.
  - intros s c. unfold _crc_check.
    destruct (crc_total s) as (hi & lo & ->).
    split; intros H.
    + apply bytes_eqb_eq in H. subst c. reflexivity.
    + injection H as <-. apply bytes_eqb_refl.
  - intros s c Hlen. unfold _crc_check.
    destruct (crc_total s) as (hi & lo & ->).
    destruct (bytes_eqb [hi; lo] c) eqn:E; [|reflexivity].
    apply bytes_eqb_eq in E. subst c. cbn [List.length] in Hlen. lia.
Qed.

(** ** More on the response parser *)

(** X4: a read on a silent line raises SIReaderTimeout and leaves the
    reader as it was; in particular the cached station code is kept. *)
Theorem read_command_timeout (r : SIReader) :
  in_buffer (_serial r) = [] ->
  _read_command r = (Raise (SIReaderTimeout "No data available"), r).
Proof.
  intros H. destruct r as [[buf w p] pc sc sn d nc no].
  cbn [_serial in_buffer] in H. subst buf. reflexivity.
Qed.

(** X4, witness. *)
Lemma read_command_timeout_witness :
  fst (_read_command (reader_on []))
  = Raise (SIReaderTimeout "No data available").
Proof. rewrite (read_command_timeout (reader_on []) eq_refl). reflexivity. Defined.

(** X5: a first byte that is neither STX, NAK nor WAKEUP makes
    [_read_command] flush the input (everything on the line is dropped)
    and raise "Invalid start byte 0x.."; NAK raises "Invalid command or
    parameter." and only consumes the NAK byte.  Nothing else of the
    reader changes. *)
Theorem read_command_bad_start (w : list bytes) (p : bytes -> bytes)
    (pc : option ProtoConfig) (sc : option Z) (sn : Z) (d nc : bool)
    (no : option Z) (b : byte) (rest : bytes) :
  (b <> STX -> b <> NAK -> b <> WAKEUP ->
   _read_command (mkSIReader (mkSerial (b :: rest) w p) pc sc sn d nc no)
   = (Raise (SIReaderException ("Invalid start byte " ++ hex (byte2int b))),
      mkSIReader (mkSerial [] w p) pc sc sn d nc no))
  /\ _read_command (mkSIReader (mkSerial (NAK :: rest) w p) pc sc sn d nc no)
     = (Raise (SIReaderException "Invalid command or parameter."),
        mkSIReader (mkSerial rest w p) pc sc sn d nc no).
Proof.
  split; [|reflexivity].
  intros H1 H2 H3.
  assert (Hne : forall c, b <> c -> bytes_eqb [b] [c] = false).
  { intros c Hc. destruct (bytes_eqb [b] [c]) eqn:E; [|reflexivity].
    apply bytes_eqb_eq in E. congruence. }
  unfold _read_command. unfold_method.
  rewrite (Hne WAKEUP H3). unfold_method.
  change (bytes_eqb [b] []) with false.
  rewrite (Hne NAK H2), (Hne STX H1). cbn [negb]. unfold_method.
  reflexivity.
Qed.

(** X5, witness: the byte 07 in front of a frame. *)
Lemma read_command_bad_start_witness :
  _read_command (reader_on [x07; xf0; x03])
  = (Raise (SIReaderException "Invalid start byte 0x7"), reader_on []).
Proof.
  destruct (read_command_bad_start [] (fun _ => []) None None 0 true false
              None x07 [xf0; x03]) as [H _].
  apply H; discriminate.
Defined.

(** X6: a well-formed response frame, with or without a WAKEUP byte in
    front, is parsed into [(cmd, data)]: the station bytes go to
    [_station_code], exactly the frame is consumed and what follows it
    stays on the line. *)
Theorem read_command_parses_frame (w : list bytes) (p : bytes -> bytes)
    (pc : option ProtoConfig) (sc : option Z) (sn : Z) (d nc : bool)
    (no : option Z) (cmd len s1 s2 : byte) (data crc rest : bytes) :
  Z.of_nat (List.length data) = byte2int len - 2 ->
  _crc ([cmd; len; s1; s2] ++ data) = Ok crc ->
  let frame := STX :: cmd :: len :: s1 :: s2 :: data ++ crc ++ ETX :: rest in
  let after := mkSIReader (mkSerial rest w p) pc
                          (Some (byte2int s1 * 256 + byte2int s2)) sn d nc no in
  _read_command (mkSIReader (mkSerial frame w p) pc sc sn d nc no)
  = (Ok ([cmd], data), after)
  /\ _read_command (mkSIReader (mkSerial (WAKEUP :: frame) w p) pc sc sn d nc no)
     = (Ok ([cmd], data), after).
Proof.
  intros Hlen Hcrc frame after.
  pose proof (read_command_frame w p pc sc sn d nc no cmd len s1 s2 data crc
                rest Hlen Hcrc) as H.
  rewrite _to_int_2 in H. subst frame after. split; [exact H|].
  rewrite <- H. reflexivity.
Qed.

(** X6, witness: the reply 02 F0 03 00 2A 4D 0D EB 03 to SET_MS. *)
Lemma read_command_parses_frame_witness :
  _read_command (reader_on [STX; xf0; x03; x00; x2a; x4d; x0d; xeb; ETX])
  = (Ok ([xf0], [x4d]),
     mkSIReader (mkSerial [] [] (fun _ => [])) None (Some 42) 0 true false None).
Proof.
  destruct (read_command_parses_frame [] (fun _ => []) None None 0 true false
              None xf0 x03 x00 x2a [x4d] [x0d; xeb] []) as [H _].
  - reflexivity.
  - vm_compute. reflexivity.
  - exact H.
Defined.

(** X7: a frame of the right layout whose CRC field is not the CRC of
    command, length, station and data is consumed and rejected with "CRC
    check failed". *)
Theorem read_command_rejects_bad_crc (w : list bytes) (p : bytes -> bytes)
    (pc : option ProtoConfig) (sc : option Z) (sn : Z) (d nc : bool)
    (no : option Z) (cmd len s1 s2 : byte) (data crc rest : bytes) :
  Z.of_nat (List.length data) = byte2int len - 2 ->
  List.length crc = 2%nat ->
  _crc ([cmd; len; s1; s2] ++ data) <> Ok crc ->
  _read_command
    (mkSIReader
       (mkSerial (STX :: cmd :: len :: s1 :: s2 :: data ++ crc ++ ETX :: rest)
                 w p) pc sc sn d nc no)
  = (Raise (SIReaderException "CRC check failed"),
     mkSIReader (mkSerial rest w p) pc
                (Some (byte2int s1 * 256 + byte2int s2)) sn d nc no).
Proof.
  intros Hlen Hclen Hcrc.
  destruct crc as [|c1 [|c2 [|c3 crc]]]; try discriminate Hclen.
  assert (Hchk : _crc_check (cmd :: len :: s1 :: s2 :: data) [c1; c2] = false).
  { unfold _crc_check. cbn [app] in Hcrc.
    destruct (_crc (cmd :: len :: s1 :: s2 :: data)) as [c|]; [|reflexivity].
    destruct (bytes_eqb c [c1; c2]) eqn:E; [|reflexivity].
    apply bytes_eqb_eq in E. congruence. }
  unfold _read_command. unfold_method.
  change (bytes_eqb [STX] [WAKEUP]) with false.
  unfold_method.
  change (bytes_eqb [STX] []) with false.
  change (bytes_eqb [STX] [NAK]) with false.
  change (bytes_eqb [STX] [STX]) with true.
  cbn [negb]. unfold_method.
  cbn [firstn skipn byte2int_of index nth_error].
  unfold_method.
  rewrite !firstn_app_exact, !skipn_app_exact by lia.
  cbn [app firstn skipn].
  change (bytes_eqb [ETX] [ETX]) with true. cbn [negb].
  rewrite Hchk. cbn [negb]. unfold_method. rewrite _to_int_2. reflexivity.
Qed.

(** X7, witness: the reply of scenario S2 with its CRC bytes A1 C2. *)
Lemma read_command_rejects_bad_crc_witness :
  fst (_read_command (reader_on [STX; xf0; x03; x00; x2a; x4d; xa1; xc2; ETX]))
  = Raise (SIReaderException "CRC check failed").
Proof.
  assert (Hne : _crc ([xf0; x03; x00; x2a] ++ [x4d]) <> Ok [xa1; xc2])
    by (vm_compute; discriminate).
  pose proof (read_command_rejects_bad_crc [] (fun _ => []) None None 0 true
                false None xf0 x03 x00 x2a [x4d] [xa1; xc2] []
                eq_refl eq_refl Hne) as H.
  apply (f_equal fst) in H. exact H.
Defined.

(** ** Sending a command *)

Lemma send_command_reply (w : list bytes) (p : bytes -> bytes)
    (pc : option ProtoConfig) (sc : option Z) (sn : Z) (d nc : bool)
    (no : option Z) (skipwakeup : bool) (command parameters frame : bytes)
    (cmd len s1 s2 : byte) (data crc : bytes) :
  request_frame skipwakeup command parameters = Ok frame ->
  p frame = STX :: cmd :: len :: s1 :: s2 :: data ++ crc ++ [ETX] ->
  Z.of_nat (List.length data) = byte2int len - 2 ->
  _crc ([cmd; len; s1; s2] ++ data) = Ok crc ->
  _send_command_kw skipwakeup command parameters
    (mkSIReader (mkSerial [] w p) pc sc sn d nc no)
  = (Ok ([cmd], data),
     mkSIReader (mkSerial [] (w ++ [frame]) p) pc
                (Some (_to_int [s1; s2])) sn d nc no).
Proof.
  intros Hframe Hreply Hlen Hcrc.
  unfold _send_command_kw.
  cbn [bind serial_inWaiting gets _serial in_buffer List.length Z.of_nat].
  change (negb (0 =? 0)) with false. cbn [ret bind lift].
  rewrite Hframe.
  cbn [bind lift ret serial_write modify]. unfold set_serial.
  cbn [_serial in_buffer written peer app proto_config _station_code _serno
       direct _noconnect _next_offset].
  rewrite Hreply.
  apply (read_command_frame (w ++ [frame]) p pc sc sn d nc no cmd len s1 s2
           data crc [] Hlen Hcrc).
Qed.

Lemma request_frame_layout (skipwakeup : bool) (command parameters : bytes) :
  (List.length parameters <= 255)%nat ->
  exists len hi lo,
    byte2int len = Z.of_nat (List.length parameters)
    /\ _crc (command ++ [len] ++ parameters) = Ok [hi; lo]
    /\ request_frame skipwakeup command parameters
       = Ok ((if skipwakeup then [] else [WAKEUP])
             ++ [STX] ++ command ++ [len] ++ parameters ++ [hi; lo] ++ [ETX]).
Proof.
  intros Hlen. unfold request_frame.
  destruct (int2byte_total (Z.of_nat (List.length parameters)))
    as (len & -> & Hb); [lia|].
  cbn [rbind].
  destruct (crc_total (command ++ [len] ++ parameters)) as (hi & lo & Hcrc).
  rewrite Hcrc. cbn [rbind].
  exists len, hi, lo. split; [exact Hb|]. split; [exact Hcrc|].
  destruct skipwakeup; cbn [negb app]; rewrite <- ?app_assoc; reflexivity.
Qed.

(** X8: [_send_command] refuses to send while input is waiting: it raises
    "Input buffer must be empty before sending command." with the number
    of waiting bytes, writes nothing and leaves the reader as it was. *)
Theorem send_command_busy_line (r : SIReader) (skipwakeup : bool)
    (command parameters : bytes) :
  in_buffer (_serial r) <> [] ->
  _send_command_kw skipwakeup command parameters r
  = (Raise (SIReaderException
              ("Input buffer must be empty before sending command."
               ++ " Currently "
               ++ str_of_int (Z.of_nat (List.length (in_buffer (_serial r))))
               ++ " bytes in the input buffer.")), r).
Proof.
  intros Hbuf. unfold _send_command_kw.
  cbn [bind serial_inWaiting gets].
  destruct (in_buffer (_serial r)) as [|b buf] eqn:E; [congruence|].
  destruct (Z.eqb_spec (Z.of_nat (List.length (b :: buf))) 0) as [H0|H0];
    [cbn [List.length] in H0; lia|].
  reflexivity.
Qed.

(** X8, witness: one stale byte on the line. *)
Lemma send_command_busy_line_witness :
  _send_command [C_SET_MS] [x4d] (reader_on [x07])
  = (Raise (SIReaderException
              "Input buffer must be empty before sending command. Currently 1 bytes in the input buffer."),
     reader_on [x07]).
Proof.
  apply (send_command_busy_line (reader_on [x07]) false [C_SET_MS] [x4d]).
  discriminate.
Defined.

(** X9: on an idle line, [_send_command] with at most 255 parameter bytes
    writes exactly one frame, WAKEUP STX command length parameters CRC ETX,
    whose length byte counts the parameters and whose CRC is that of
    command, length and parameters; when the station answers it with a
    well-formed frame, the call returns that frame's [(cmd, data)], stores
    its station bytes and leaves the line empty. *)
Theorem send_command_writes_frame_and_returns_reply
    (w : list bytes) (p : bytes -> bytes)
    (pc : option ProtoConfig) (sc : option Z) (sn : Z) (d nc : bool)
    (no : option Z) (command parameters : bytes) :
  (List.length parameters <= 255)%nat ->
  exists len hi lo,
    byte2int len = Z.of_nat (List.length parameters)
    /\ _crc_check (command ++ [len] ++ parameters) [hi; lo] = true
    /\ let frame := [WAKEUP; STX] ++ command ++ [len] ++ parameters
                    ++ [hi; lo; ETX] in
       forall (cmd rlen s1 s2 : byte) (data crc : bytes),
         p frame = STX :: cmd :: rlen :: s1 :: s2 :: data ++ crc ++ [ETX] ->
         Z.of_nat (List.length data) = byte2int rlen - 2 ->
         _crc ([cmd; rlen; s1; s2] ++ data) = Ok crc ->
         _send_command command parameters
           (mkSIReader (mkSerial [] w p) pc sc sn d nc no)
         = (Ok ([cmd], data),
            mkSIReader (mkSerial [] (w ++ [frame]) p) pc
                       (Some (byte2int s1 * 256 + byte2int s2)) sn d nc no).
Proof.
  intros Hlen.
  destruct (request_frame_layout false command parameters Hlen)
    as (len & hi & lo & Hb & Hcrc & Hframe).
  exists len, hi, lo. split; [exact Hb|]. split.
  { unfold _crc_check. rewrite Hcrc. apply bytes_eqb_refl. }
  intros frame cmd rlen s1 s2 data crc Hreply Hdl Hrcrc.
  rewrite <- _to_int_2.
  apply (send_command_reply w p pc sc sn d nc no false command parameters
           frame cmd rlen s1 s2 data crc); assumption.
Qed.

(** X9, witness: SET_MS with parameter 4D and a station that answers
    02 F0 03 00 2A 4D 0D EB 03. *)
Lemma send_command_writes_frame_and_returns_reply_witness :
  let p := fun _ : bytes => [STX; xf0; x03; x00; x2a; x4d; x0d; xeb; ETX] in
  fst (_send_command [C_SET_MS] [x4d]
         (mkSIReader (mkSerial [] [] p) None None 0 true false None))
  = Ok ([xf0], [x4d]).
Proof.
  intros p.
  destruct (send_command_writes_frame_and_returns_reply [] p None None 0 true
              false None [C_SET_MS] [x4d]) as (len & hi & lo & _ & _ & H).
  - cbn [List.length]. lia.
  - specialize (H xf0 x03 x00 x2a [x4d] [x0d; xeb] eq_refl eq_refl eq_refl).
    apply (f_equal fst) in H. exact H.
Defined.

(** X10: more than 255 parameter bytes cannot be framed: the length byte
    does not exist, [int2byte] fails (struct.error) and nothing is
    written. *)
Theorem send_command_too_long (r : SIReader) (skipwakeup : bool)
    (command parameters : bytes) :
  in_buffer (_serial r) = [] ->
  (255 < List.length parameters)%nat ->
  _send_command_kw skipwakeup command parameters r = (Raise StructError, r).
Proof.
  intros Hbuf Hlen. unfold _send_command_kw.
  cbn [bind serial_inWaiting gets]. rewrite Hbuf.
  cbn [List.length Z.of_nat]. change (negb (0 =? 0)) with false.
  cbn [ret bind lift]. unfold request_frame, int2byte.
  destruct (Z.ltb_spec (Z.of_nat (List.length parameters)) 256); [lia|].
  rewrite andb_false_r. reflexivity.
Qed.

(** X10, witness: 256 parameter bytes. *)
Lemma send_command_too_long_witness :
  _send_command [C_SET_SYS_VAL] (repeat x00 256) (reader_on [])
  = (Raise StructError, reader_on []).
Proof.
  apply (send_command_too_long (reader_on []) false [C_SET_SYS_VAL]
           (repeat x00 256) eq_refl).
  rewrite repeat_length. lia.
Defined.

(** ** Signs of the float computations *)

Lemma binary_round_aux_sign (sx : bool) (mx ex : Z) (lx : location) :
  forall s m e,
    binary_round_aux prec emax sx mx ex lx = S754_finite s m e -> s = sx.
Proof.
  intros s m e. unfold binary_round_aux.
  destruct (shr_fexp prec emax mx ex lx) as [mrs' e'].
  destruct (shr_fexp prec emax _ e' loc_Exact) as [mrs'' e''].
  destruct (shr_m mrs''); try discriminate.
  destruct (e'' <=? emax - prec); [|discriminate].
  intros [= <- _ _]. reflexivity.
Qed.

Lemma SFmul_not_negative (x y : spec_float) :
  sf_not_negative x -> sf_not_negative y ->
  sf_not_negative (SFmul prec emax x y).
Proof.
  intros Hx Hy s m e.
  destruct x as [sx|sx| |sx mx ex], y as [sy|sy| |sy my ey];
    cbn [SFmul]; try discriminate.
  intros H. apply binary_round_aux_sign in H.
  rewrite (Hx sx mx ex eq_refl), (Hy sy my ey eq_refl) in H. exact H.
Qed.

Lemma SFdiv_not_negative (x y : spec_float) :
  sf_not_negative x -> sf_not_negative y ->
  sf_not_negative (SFdiv prec emax x y).
Proof.
  intros Hx Hy s m e.
  destruct x as [sx|sx| |sx mx ex], y as [sy|sy| |sy my ey];
    cbn [SFdiv]; try discriminate.
  destruct (SFdiv_core_binary prec emax (Z.pos mx) ex (Z.pos my) ey)
    as [[mz ez] lz].
  intros H. apply binary_round_aux_sign in H.
  rewrite (Hx sx mx ex eq_refl), (Hy sy my ey eq_refl) in H. exact H.
Qed.

Lemma float_of_int_not_negative (i : Z) :
  sf_not_negative (Prim2SF (float_of_int i)).
Proof.
  unfold float_of_int. rewrite of_uint63_spec.
  intros s m e. unfold binary_normalize.
  pose proof (Uint63.to_Z_bounded (Uint63.of_Z i)) as Hb.
  destruct (Uint63.to_Z (Uint63.of_Z i)) as [|q|q]; try discriminate; [|lia].
  unfold binary_round.
  destruct (shl_align q 0 _) as [mz ez].
  intros H. apply binary_round_aux_sign in H. exact H.
Qed.

Lemma py_round_not_negative (x : float) (k : Z) :
  sf_not_negative (Prim2SF x) -> py_round x = Ok k -> 0 <= k.
Proof.
  intros Hx. unfold py_round.
  destruct (Prim2SF x) as [s|s| |s m e]; try discriminate.
  - intros [= <-]. lia.
  - rewrite (Hx s m e eq_refl). intros [= <-].
    destruct (0 <=? e).
    + apply Z.shiftl_nonneg. lia.
    + assert (0 <= Z.shiftr (Z.pos m) (- e)) by (apply Z.shiftr_nonneg; lia).
      destruct (_ <? _); [lia|]. destruct (_ <? _); [lia|].
      destruct (Z.even _); lia.
Qed.

(** The byte that [set_time] computes from the microseconds is never
    negative. *)
Lemma set_time_frac_not_negative (us k : Z) :
  set_time_frac us = Ok k -> 0 <= k.
Proof.
  unfold set_time_frac. apply py_round_not_negative.
  rewrite mul_spec, div_spec.
  apply SFmul_not_negative; [apply SFdiv_not_negative|].
  - apply float_of_int_not_negative.
  - intros s m e. vm_compute. intros [= <- _ _]. reflexivity.
  - intros s m e. vm_compute. intros [= <- _ _]. reflexivity.
Qed.

(** ** Station time *)

Lemma ymd_of_century (t : datetime) :
  1 <= toordinal t <= _MAXORDINAL ->
  2000 <= year t <= 2099 ->
  1 <= month t <= 12 /\ 1 <= day t <= 31
  /\ day t <= _days_in_month (year t) (month t)
  /\ _ymd2ord (year t) (month t) (day t) = toordinal t.
Proof.
  intros Hord Hyear.
  pose proof (year_in_century _ Hord Hyear) as Hrange.
  pose proof (range_all_spec _ _ _ ordinal_ok_century (toordinal t)) as Hok.
  specialize (Hok ltac:(lia)). unfold ordinal_ok in Hok.
  unfold year, month, day in *.
  destruct (_ord2ymd (toordinal t)) as [[y m] d]. cbn [fst snd] in *.
  repeat (apply andb_prop in Hok; destruct Hok as [Hok ?]).
  repeat match goal with
         | H : (_ <=? _) = true |- _ => apply Z.leb_le in H
         | H : (_ =? _) = true |- _ => apply Z.eqb_eq in H
         end.
  assert (Hdim : _days_in_month y m <= 31).
  { unfold _days_in_month. destruct ((m =? 2) && _is_leap y); [lia|].
    assert (Hm : m = 1 \/ m = 2 \/ m = 3 \/ m = 4 \/ m = 5 \/ m = 6 \/ m = 7
                 \/ m = 8 \/ m = 9 \/ m = 10 \/ m = 11 \/ m = 12) by lia.
    repeat (destruct Hm as [-> | Hm]; [cbv; discriminate|]).
    subst m. cbv. discriminate. }
  repeat split; try assumption; lia.
Qed.

Lemma time_fields_range (t : datetime) :
  0 <= dayus t < US_PER_DAY ->
  0 <= hour t < 24 /\ 0 <= minute t < 60 /\ 0 <= second t < 60
  /\ 0 <= microsecond t < 1000000
  /\ dayus t = hour t * 3600000000 + minute t * 60000000
               + second t * 1000000 + microsecond t.
Proof.
  unfold hour, minute, second, microsecond, US_PER_DAY. intros H. zdiv.
Qed.

Lemma hms_recover (h mi s : Z) :
  0 <= h < 24 -> 0 <= mi < 60 -> 0 <= s < 60 ->
  let secs := h mod 12 * 3600 + mi * 60 + s in
  0 <= secs < 65536
  /\ h / 12 * 12 + secs / 3600 = h
  /\ secs mod 3600 / 60 = mi
  /\ secs mod 3600 mod 60 = s.
Proof. intros Hh Hmi Hs secs. unfold secs. zdiv. Qed.

Lemma land_1_of_ptd (wd hp : Z) :
  0 <= wd -> 0 <= hp <= 1 -> Z.land (Z.shiftl wd 1 + hp) 1 = hp.
Proof.
  intros Hwd Hhp. rewrite Z.shiftl_mul_pow2 by lia.
  pose proof (Z.land_ones (wd * 2 ^ 1 + hp) 1 ltac:(lia)) as H.
  change (Z.ones 1) with 1 in H. rewrite H. change (2 ^ 1) with 2. zdiv.
Qed.

(** The seven bytes of [set_time], field by field. *)
Lemma set_time_bintime_fields (t : datetime) (frac : Z) :
  valid t -> 2000 <= year t <= 2099 ->
  set_time_frac (microsecond t) = Ok frac -> frac <= 255 ->
  exists b0 b1 b2 b3 b4 b5 b6,
    set_time_bintime t = Ok [b0; b1; b2; b3; b4; b5; b6]
    /\ byte2int b0 = year t - 2000 /\ byte2int b1 = month t
    /\ byte2int b2 = day t
    /\ byte2int b3 = Z.shiftl (isoweekday t mod 7) 1 + hour t / 12
    /\ _to_int [b4; b5] = hour t mod 12 * 3600 + minute t * 60 + second t
    /\ byte2int b6 = frac.
Proof.
  intros [Hord Hus] Hyear Hfrac Hle.
  destruct (ymd_of_century t Hord Hyear) as (Hm & Hd & _ & _).
  destruct (time_fields_range t Hus) as (Hh & Hmi & Hs & _ & _).
  pose proof (set_time_frac_not_negative _ _ Hfrac) as Hfrac0.
  assert (Hwd : 0 <= isoweekday t mod 7 < 7) by (apply Z.mod_pos_bound; lia).
  unfold set_time_bintime. fold (set_time_frac (microsecond t)).
  unfold strftime_y.
  destruct (_to_str_1 (year t mod 100)) as (b0 & -> & Hb0); [zdiv|].
  destruct (_to_str_1 (month t)) as (b1 & -> & Hb1); [lia|].
  destruct (_to_str_1 (day t)) as (b2 & -> & Hb2); [lia|].
  destruct (_to_str_1 (Z.shiftl (isoweekday t mod 7) 1 + hour t / 12))
    as (b3 & -> & Hb3).
  { rewrite Z.shiftl_mul_pow2 by lia. change (2 ^ 1) with 2. zdiv. }
  destruct (hms_recover (hour t) (minute t) (second t) Hh Hmi Hs)
    as (Hsecs & _).
  destruct (_to_str_2 (hour t mod 12 * 3600 + minute t * 60 + second t))
    as (b4 & b5 & -> & Hb45); [exact Hsecs|].
  rewrite Hfrac. cbn [rbind].
  destruct (_to_str_1 frac) as (b6 & -> & Hb6); [lia|].
  cbn [rbind app].
  exists b0, b1, b2, b3, b4, b5, b6.
  repeat split; try assumption. rewrite Hb0. zdiv.
Qed.

(** X11: [set_time] followed by [get_time]'s decoding.  For a datetime of
    the years 2000..2099 whose sub-second byte [frac =
    int(round(microsecond / 1000000.0 * 256))] is at most 255, the seven
    bytes that [set_time] sends decode to a datetime with the same year,
    month, day, hour, minute and second, whose microseconds are
    [frac * 10^6 / 256] rounded to the nearest integer (halves to even). *)
Theorem set_time_get_time_roundtrip (t : datetime) (frac : Z) :
  valid t ->
  2000 <= year t <= 2099 ->
  set_time_frac (microsecond t) = Ok frac ->
  frac <= 255 ->
  exists bintime t',
    set_time_bintime t = Ok bintime
    /\ List.length bintime = 7%nat
    /\ get_time_decode bintime = Ok (Some t')
    /\ year t' = year t /\ month t' = month t /\ day t' = day t
    /\ hour t' = hour t /\ minute t' = minute t /\ second t' = second t
    /\ microsecond t' = round_half_even (frac * 1000000) 256.
Proof.
  intros Hvalid Hyear Hfrac Hle.
  destruct (set_time_bintime_fields t frac Hvalid Hyear Hfrac Hle)
    as (b0 & b1 & b2 & b3 & b4 & b5 & b6
        & -> & Hb0 & Hb1 & Hb2 & Hb3 & Hb45 & Hb6).
  destruct Hvalid as [Hord Hus].
  destruct (ymd_of_century t Hord Hyear) as (Hm & Hd & Hdim & Hymd).
  destruct (time_fields_range t Hus) as (Hh & Hmi & Hs & _ & _).
  pose proof (set_time_frac_not_negative _ _ Hfrac) as Hfrac0.
  destruct (hms_recover (hour t) (minute t) (second t) Hh Hmi Hs)
    as (_ & Hrh & Hrm & Hrs).
  assert (Hwd : 0 <= isoweekday t mod 7) by (apply Z.mod_pos_bound; lia).
  assert (Hhp : 0 <= hour t / 12 <= 1) by zdiv.
  eexists. eexists. split; [reflexivity|]. split; [reflexivity|].
  unfold get_time_decode, index. cbn [nth_error rbind slice skipn firstn Nat.sub].
  rewrite Hb0, Hb1, Hb2, Hb3, Hb45, Hb6.
  rewrite (land_1_of_ptd _ _ Hwd Hhp), Hrh, Hrm, Hrs.
  rewrite (get_time_ms_exact frac) by lia. cbn [rbind].
  set (ms := round_half_even (frac * 1000000) 256).
  assert (Hms : 0 <= ms <= 999999).
  { pose proof (round_half_even_bounds (frac * 1000000) 256) as Hb.
    fold ms in Hb. zdiv. }
  replace (year t - 2000 + 2000) with (year t) by lia.
  unfold Datetime.new, MINYEAR, MAXYEAR.
  repeat match goal with
         | |- context [?a <=? ?b] => destruct (Z.leb_spec a b); [|lia]
         end.
  cbn [andb]. split; [reflexivity|].
  rewrite Hymd.
  split; [reflexivity|]. split; [reflexivity|]. split; [reflexivity|].
  clear - Hh Hmi Hs Hms.
  generalize dependent (hour t). generalize dependent (minute t).
  generalize dependent (second t). intros s Hs mi Hmi h Hh.
  unfold hour, minute, second, microsecond. cbn [dayus].
  repeat split; zdiv.
Qed.

(** X11, witness: 2023-03-01 14:00:00.500000, sub-second byte 0x80. *)
Lemma set_time_get_time_roundtrip_witness :
  exists bintime t',
    set_time_bintime (mkdt 738580 50400500000) = Ok bintime
    /\ get_time_decode bintime = Ok (Some t')
    /\ microsecond t' = 500000.
Proof.
  destruct (set_time_get_time_roundtrip (mkdt 738580 50400500000) 128)
    as (bintime & t' & H1 & _ & H2 & H3).
  - unfold valid, _MAXORDINAL, US_PER_DAY. cbn [toordinal dayus]. lia.
  - vm_compute. split; discriminate.
  - vm_compute. reflexivity.
  - lia.
  - exists bintime, t'. split; [exact H1|]. split; [exact H2|].
    destruct H3 as (_ & _ & _ & _ & _ & _ & H3). rewrite H3. reflexivity.
Defined.



Lemma set_time_frac_top : range_all set_time_frac_256 1953 998047 = true.
Proof. vm_cast_no_check (eq_refl true). Qed.

(** X13: [set_time] cannot encode the last 1953 microseconds of a second:
    for a datetime of the years 2000..2099 with [microsecond >= 998047],
    [int(round(microsecond / 1000000.0 * 256))] is 256, which does not fit
    one byte, so [set_time] raises OverflowError and sends nothing. *)
Theorem set_time_overflow (t : datetime) (r : SIReader) :
  valid t -> 2000 <= year t <= 2099 -> 998047 <= microsecond t ->
  set_time_bintime t = Raise OverflowError
  /\ set_time t r = (Raise OverflowError, r).
Proof.
  intros [Hord Hus] Hyear Hms.
  assert (H : set_time_bintime t = Raise OverflowError).
  { destruct (ymd_of_century t Hord Hyear) as (Hm & Hd & _ & _).
    destruct (time_fields_range t Hus) as (Hh & Hmi & Hs & Hmsr & _).
    assert (Hwd : 0 <= isoweekday t mod 7 < 7) by (apply Z.mod_pos_bound; lia).
    assert (Hfrac : set_time_frac (microsecond t) = Ok 256).
    { pose proof (range_all_spec _ _ _ set_time_frac_top (microsecond t)
                    ltac:(lia)) as Hk.
      unfold set_time_frac_256 in Hk.
      destruct (set_time_frac (microsecond t)) as [f|]; [|discriminate].
      apply Z.eqb_eq in Hk. congruence. }
    unfold set_time_bintime. fold (set_time_frac (microsecond t)).
    unfold strftime_y.
    destruct (_to_str_1 (year t mod 100)) as (b0 & -> & _); [zdiv|].
    destruct (_to_str_1 (month t)) as (b1 & -> & _); [lia|].
    destruct (_to_str_1 (day t)) as (b2 & -> & _); [lia|].
    destruct (_to_str_1 (Z.shiftl (isoweekday t mod 7) 1 + hour t / 12))
      as (b3 & -> & _).
    { rewrite Z.shiftl_mul_pow2 by lia. change (2 ^ 1) with 2. zdiv. }
    destruct (hms_recover (hour t) (minute t) (second t) Hh Hmi Hs)
      as (Hsecs & _).
    destruct (_to_str_2 (hour t mod 12 * 3600 + minute t * 60 + second t))
      as (b4 & b5 & -> & _); [exact Hsecs|].
    rewrite Hfrac. reflexivity. }
  split; [exact H|]. unfold set_time, bind, lift. rewrite H. reflexivity.
Qed.

(** X13, witness: 2023-03-01 14:00:00.999000. *)
Lemma set_time_overflow_witness :
  set_time_bintime (mkdt 738580 50400999000) = Raise OverflowError.
Proof.
  destruct (set_time_overflow (mkdt 738580 50400999000) (reader_on [])) as [H _].
  - unfold valid, _MAXORDINAL, US_PER_DAY. cbn [toordinal dayus]. lia.
  - vm_compute. split; discriminate.
  - vm_compute. discriminate.
  - exact H.
Defined.

(** ** More on time reconstruction *)

(** With a PTD byte, [_decode_time] goes back [k] whole days from the
    reference day and puts the punch time on that day. *)
Lemma decode_time_ptd_shape (now ref : datetime) (hi lo p : byte)
    (t : datetime) :
  valid ref -> _to_int [hi; lo] < 43200 ->
  _decode_time now [hi; lo] (Some p) (Some ref) = Ok (Some t) ->
  let pt := 1000000 * _to_int [hi; lo]
            + twelve_hours * Z.land (byte2int p) 1 in
  exists k,
    toordinal t = toordinal ref - k /\ dayus t = pt
    /\ 0 <= pt < US_PER_DAY
    /\ ((k = 7 /\ weekday ref = ptd_weekday p /\ dayus ref < pt)
        \/ (k = 0 /\ weekday ref = ptd_weekday p /\ pt <= dayus ref)
        \/ (1 <= k <= 6 /\ k = (weekday ref - ptd_weekday p) mod 7)).
Proof.
  intros Href Hraw. unfold _decode_time.
  rewrite raw_not_reset by exact Hraw. cbn [rbind].
  fold (ptd_weekday p).
  pose proof (ptd_weekday_range p) as Hdow.
  pose proof (punchtime_range hi lo Hraw) as Hpt.
  pose proof (_to_int_range [hi; lo]) as Hr.
  assert (Hb : Z.land (byte2int p) 1 = 0 \/ Z.land (byte2int p) 1 = 1).
  { pose proof (Z.land_ones (byte2int p) 1 ltac:(lia)) as H.
    change (Z.ones 1) with 1 in H. rewrite H. change (2 ^ 1) with 2. zdiv. }
  set (pt0 := if Z.land (byte2int p) 1 =? 1 then _ else _).
  intros Hdec.
  set (pt := 1000000 * _to_int [hi; lo]
             + twelve_hours * Z.land (byte2int p) 1).
  assert (Hpt0 : pt0 = pt).
  { unfold pt0, pt, twelve_hours, mktd.
    destruct Hb as [-> | ->]; [change (0 =? 1) with false|change (1 =? 1) with true];
      cbv iota; lia. }
  assert (Hpt' : 0 <= pt < US_PER_DAY).
  { rewrite <- Hpt0. unfold pt0, twelve_hours, mktd, US_PER_DAY in *.
    destruct (Z.land (byte2int p) 1 =? 1); lia. }
  assert (Hptmod : pt mod 1000000 = 0).
  { unfold pt, twelve_hours, mktd. destruct Hb as [-> | ->]; zdiv. }
  rewrite Hpt0 in Hdec. clearbody pt. clear pt0 Hpt0.
  destruct Href as [Hord Hus].
  rewrite hms_floor in Hdec by exact Hus.
  assert (Hsec : forall x, x mod 1000000 = 0 ->
            (dayus ref / 1000000 * 1000000 < x <-> dayus ref < x)) by (intros; zdiv).
  revert Hdec.
  destruct (Z.eqb_spec (weekday ref) (ptd_weekday p)) as [Hw|Hw];
    [destruct (Z.ltb_spec (dayus ref / 1000000 * 1000000) pt) as [Hlt|Hge]|];
    cbn [andb];
    (destruct (sub ref _) as [r0|] eqn:E0; cbn [rbind]; [|discriminate]);
    (destruct (add (midnight r0) pt) as [r|] eqn:E1; cbn [rbind]; [|discriminate]);
    intros [= <-];
    apply sub_days_inv in E0; try exact Hus; destruct E0 as [Ho0 _];
    apply add_midnight_inv in E1; try exact Hpt'; destruct E1 as [Ho1 Hu1].
  - exists 7. repeat split; try lia. left. repeat split; try lia.
    apply Hsec; assumption.
  - exists 0. rewrite Hw, Z.sub_diag in Ho0. change (0 mod 7) with 0 in Ho0.
    repeat split; try lia. right. left. repeat split; try lia.
    clear - Hge Hus. zdiv.
  - exists ((weekday ref - ptd_weekday p) mod 7).
    repeat split; try lia. right. right. unfold weekday in *. zdiv.
Qed.

(** X14: with a PTD byte and a raw time in 0..43199 s, the datetime that
    [_decode_time] returns shows exactly the punch time (raw seconds plus
    12 hours when the PM bit is set), lies less than seven days before the
    reference and never after it, and is the latest such instant: every
    datetime with the same weekday and time of day that is not after the
    reference is not after the result. *)
Theorem decode_time_ptd_latest_match (now ref : datetime) (hi lo p : byte)
    (t : datetime) :
  valid ref -> _to_int [hi; lo] < 43200 ->
  _decode_time now [hi; lo] (Some p) (Some ref) = Ok (Some t) ->
  dayus t = 1000000 * _to_int [hi; lo]
            + twelve_hours * Z.land (byte2int p) 1
  /\ 0 <= diff ref t < mktd 7 0 0 0 0
  /\ (forall u : datetime,
        weekday u = weekday t -> dayus u = dayus t -> le u ref -> le u t).
Proof.
  intros Href Hraw Hdec.
  destruct (decode_time_ptd_shape now ref hi lo p t Href Hraw Hdec)
    as (k & Hord & Hus & Hpt & Hk).
  destruct Href as [_ Hrus].
  split; [exact Hus|].
  assert (Hdiff : 0 <= diff ref t < mktd 7 0 0 0 0).
  { unfold diff, instant, mktd, US_PER_DAY in *. rewrite Hord, Hus.
    destruct Hk as [(-> & _ & H) | [(-> & _ & H) | (H & _)]]; lia. }
  split; [exact Hdiff|].
  intros u Hwu Hdu Hle.
  unfold le, diff, instant, weekday, mktd, US_PER_DAY in *.
  rewrite Hdu in *. zdiv.
Qed.

(** X14, witness: scenario S5. *)
Lemma decode_time_ptd_latest_match_witness :
  exists t,
    _decode_time (mkdt 1 0) [x1c; x20] (Some x05)
      (Some (mkdt 739020 36000000000)) = Ok (Some t)
    /\ dayus t = 50400000000.
Proof.
  exists (mkdt 739013 50400000000). split; [reflexivity|].
  destruct (decode_time_ptd_latest_match (mkdt 1 0)
              (mkdt 739020 36000000000) x1c x20 x05
              (mkdt 739013 50400000000)) as [H _].
  - unfold valid, _MAXORDINAL, US_PER_DAY. cbn [toordinal dayus]. lia.
  - vm_compute. reflexivity.
  - reflexivity.
  - rewrite H. reflexivity.
Defined.



(** ** Station code and feedback byte *)








(** ** Protocol configuration *)

Lemma bind_ok {A B} (m : M A) (k : A -> M B) (r r' : SIReader) (a : A) :
  m r = (Ok a, r') -> bind m k r = k a r'.
Proof. intros H. unfold bind. rewrite H. reflexivity. Qed.

Lemma bind_raise {A B} (m : M A) (k : A -> M B) (r r' : SIReader) (e : exn) :
  m r = (Raise e, r') -> bind m k r = (Raise e, r').
Proof. intros H. unfold bind. rewrite H. reflexivity. Qed.

Lemma proto_config_byte_bits (e a h pw pr : bool) (mo : option Z) :
  exists v,
    Config.proto_config_byte
      (mkProtoConfig (Some e) (Some a) (Some h) (Some pw) (Some pr) mo) = Ok v
    /\ 0 <= v < 256
    /\ negb (Z.land v 1 =? 0) = e /\ negb (Z.land v 2 =? 0) = a
    /\ negb (Z.land v 4 =? 0) = h /\ negb (Z.land v 16 =? 0) = pw
    /\ negb (Z.land v 128 =? 0) = pr.
Proof.
  eexists. split; [reflexivity|].
  destruct e, a, h, pw, pr; vm_compute; repeat split; congruence.
Qed.

(** X18: [_update_proto_config] reads back what [_set_proto_config]
    encodes.  When the station answers GET_SYS_VAL with a well-formed
    frame whose SYS_VAL image holds, at O_PROTO, the protocol byte that
    [_set_proto_config] builds from the five flags, and some mode byte at
    O_MODE, then [_update_proto_config] sends exactly that one request and
    leaves [proto_config] with the same five flags and that mode, the
    serial number taken from the first four image bytes after the filler,
    and the station code from the frame. *)
Theorem update_proto_config_reads_back (w : list bytes) (p : bytes -> bytes)
    (pc : option ProtoConfig) (sc : option Z) (sn : Z) (d : bool)
    (no : option Z) (e a h pw pr : bool) (mo : option Z)
    (frame : bytes) (cmd len s1 s2 cb m : byte) (sysval crc : bytes) :
  request_frame false [C_GET_SYS_VAL] [x00; x80] = Ok frame ->
  p frame = STX :: cmd :: len :: s1 :: s2 :: sysval ++ crc ++ [ETX] ->
  Z.of_nat (List.length sysval) = byte2int len - 2 ->
  _crc ([cmd; len; s1; s2] ++ sysval) = Ok crc ->
  Config.proto_config_byte
    (mkProtoConfig (Some e) (Some a) (Some h) (Some pw) (Some pr) mo)
  = Ok (byte2int cb) ->
  _extract_sysval sysval O_PROTO 1 = [cb] ->
  _extract_sysval sysval O_MODE 1 = [m] ->
  _update_proto_config (mkSIReader (mkSerial [] w p) pc sc sn d false no)
  = (Ok tt,
     mkSIReader (mkSerial [] (w ++ [frame]) p)
       (Some (mkProtoConfig (Some e) (Some a) (Some h) (Some pw) (Some pr)
                            (Some (byte2int m))))
       (Some (byte2int s1 * 256 + byte2int s2))
       (_to_int (_extract_sysval sysval O_SERIAL_NO 4)) d false no).
Proof.
  intros Hframe Hreply Hlen Hcrc Hbyte Hproto Hmode.
  destruct (proto_config_byte_bits e a h pw pr mo)
    as (v & Hv & _ & He & Ha & Hh & Hpw & Hpr).
  rewrite Hv in Hbyte. injection Hbyte as ->.
  unfold _update_proto_config.
  cbn [bind modify gets set_proto_config _serial proto_config _station_code
       _serno direct _noconnect _next_offset].
  unfold set_proto_config.
  cbn [_serial proto_config _station_code _serno direct _noconnect
       _next_offset].
  rewrite (bind_ok _ _ _ _ _
             (send_command_reply w p _ sc sn d false no false [C_GET_SYS_VAL]
                [x00; x80] frame cmd len s1 s2 sysval crc Hframe Hreply Hlen
                Hcrc)).
  rewrite Hproto, Hmode.
  cbn [bind lift byte2int_of index nth_error proto_update proto_config
       set_proto_config _serial _station_code _serno direct _noconnect
       _next_offset modify set_serno ext_proto auto_send handshake pw_access
       punch_read mode].
  rewrite He, Ha, Hh, Hpw, Hpr, _to_int_2. reflexivity.
Qed.

(** X18, witness: a station in control mode with extended protocol and
    autosend (protocol byte 03, mode byte 02). *)
Lemma update_proto_config_reads_back_witness :
  let sysval := repeat x00 114 ++ [x02; x2a; x3f; x03] ++ repeat x00 11 in
  let p := fun _ : bytes =>
             STX :: x83 :: x83 :: x00 :: x2a :: sysval ++ [x5d; xa3] ++ [ETX] in
  proto_config
    (snd (_update_proto_config
            (mkSIReader (mkSerial [] [] p) None None 0 true false None)))
  = Some (mkProtoConfig (Some true) (Some true) (Some false) (Some false)
                        (Some false) (Some 2)).
Proof.
  intros sysval p.
  rewrite (update_proto_config_reads_back [] p None None 0 true None
             true true false false false None
             [xff; x02; x83; x02; x00; x80; xbf; x17; x03]
             x83 x83 x00 x2a x03 x02 sysval [x5d; xa3]);
    reflexivity.
Defined.
